(** * TurbulentFormationEnv: a shallow embedding of
      [environments/turbulent_formation_env.py]

    A team of three point-mass agents tracks a moving leader goal while
    holding a formation, under a wind disturbance field.  The Python class
    [TurbulentFormationEnv] is embedded as a record [Self] holding the
    instance attributes, and every method as a function that takes the
    record and returns the updated record next to its result.

    Conventions of the embedding.
    - A numpy [float64] is a real number ([R]); rounding, infinities and NaN
      are outside the model.
    - An array of shape [(n, 2)] is a [list vec2]; [row i a] reads [a[i, :]]
      and [set_row i x a] writes it.
    - A Python exception is a value [Raise e] of the type [result]; the
      instance is returned next to it, since attributes assigned before the
      exception keep their new values.
    - [np.random] is a stream of draws in [[0, 1)] with a cursor. *)

From Stdlib Require Import Reals Lra Lia List ZArith String Bool PeanoNat Sorted.
Import ListNotations.
Open Scope R_scope.

(** ** Python results *)

Inductive exn : Type :=
| AssertionError (msg : string)
| IndexError
| KeyError
| NameError
| UnboundLocalError.

Inductive result (A : Type) : Type :=
| Ok (a : A)
| Raise (e : exn).

Arguments Ok {A} a.
Arguments Raise {A} e.

Definition is_ok {A : Type} (r : result A) : bool :=
  match r with Ok _ => true | Raise _ => false end.

(** ** numpy on rows of two floats *)

Definition vec2 : Type := (R * R)%type.

Definition vzero : vec2 := (0, 0).
Definition vadd (a b : vec2) : vec2 := (fst a + fst b, snd a + snd b).
Definition vsub (a b : vec2) : vec2 := (fst a - fst b, snd a - snd b).
Definition vneg (a : vec2) : vec2 := (- fst a, - snd a).
Definition smul (c : R) (a : vec2) : vec2 := (c * fst a, c * snd a).

(** [np.linalg.norm] of one row. *)
Definition norm (a : vec2) : R := sqrt (fst a * fst a + snd a * snd a).

(** [np.sign]. *)
Definition sign (x : R) : R :=
  if Rlt_dec 0 x then 1 else if Rlt_dec x 0 then -1 else 0.

(** [a[i, :]]; the shape invariant [(n_agents, 2)] keeps [i] in range. *)
Definition row (i : nat) (a : list vec2) : vec2 := nth i a vzero.

(** [a[i, :] = x]. *)
Fixpoint set_row (i : nat) (x : vec2) (a : list vec2) : list vec2 :=
  match a, i with
  | [], _ => []
  | _ :: a', O => x :: a'
  | y :: a', S i' => y :: set_row i' x a'
  end.

(** [np.zeros((n, 2))]. *)
Definition zeros (n : nat) : list vec2 := repeat vzero n.

(** [a.sum(axis=0)] for a list of rows, and the sum of a list of floats. *)
Definition vsum (l : list vec2) : vec2 := fold_right vadd vzero l.
Definition rsum (l : list R) : R := fold_right Rplus 0 l.

(** [a - b] for two arrays of the same shape. *)
Definition msub (a b : list vec2) : list vec2 :=
  map (fun ab => vsub (fst ab) (snd ab)) (combine a b).

(** [a.reshape(-1)]. *)
Definition reshape (a : list vec2) : list R :=
  flat_map (fun x => [fst x; snd x]) a.

(** [a.reshape(n, 2)] of a flat list of draws. *)
Fixpoint pairs (l : list R) : list vec2 :=
  match l with
  | x :: y :: l' => (x, y) :: pairs l'
  | _ => []
  end.

(** [l[i]] with Python's negative indices. *)
Definition getitem {A : Type} (l : list A) (i : Z) : option A :=
  let n := Z.of_nat (List.length l) in
  if (0 <=? i)%Z then nth_error l (Z.to_nat i)
  else if (0 <=? n + i)%Z then nth_error l (Z.to_nat (n + i))
  else None.

(** [l[a:b]] for [0 <= a]. *)
Definition slice {A : Type} (l : list A) (a b : Z) : list A :=
  firstn (Z.to_nat (b - a)) (skipn (Z.to_nat a) l).

(** [np.where(all_t >= t)[0]], the indices counted from [k]. *)
Fixpoint where_ge (all_t : list R) (t : R) (k : Z) : list Z :=
  match all_t with
  | [] => []
  | x :: rest =>
      if Rge_dec x t then k :: where_ge rest t (k + 1)
      else where_ge rest t (k + 1)
  end.

(** ** np.random *)

Record RandomState : Type := mkRandomState {
  draws : nat -> R;
  cursor : nat
}.

(** [np.random.rand(k)]: the next [k] draws. *)
Definition rand (k : nat) (rs : RandomState) : list R * RandomState :=
  (map (draws rs) (seq (cursor rs) k),
   mkRandomState (draws rs) (cursor rs + k)).

(** [np.random.randint(n)]: the next draw scaled to [0 .. n-1]. *)
Definition randint (n : nat) (rs : RandomState) : nat * RandomState :=
  (Z.to_nat (Int_part (draws rs (cursor rs) * INR n)),
   mkRandomState (draws rs) (cursor rs + 1)).

(** The draws of a stream lie in [[0, 1)]. *)
Definition unit_draws (rs : RandomState) : Prop :=
  forall k, 0 <= draws rs k < 1.

(** ** networkx: an undirected graph as insertion-ordered adjacency lists *)

Module nx.

Definition Graph : Type := list (nat * list nat).

Fixpoint add_nbr (u v : nat) (g : Graph) : Graph :=
  match g with
  | [] => [(u, [v])]
  | (w, ns) :: g' =>
      if Nat.eqb w u
      then (w, if existsb (Nat.eqb v) ns then ns else ns ++ [v]) :: g'
      else (w, ns) :: add_nbr u v g'
  end.

Definition add_node (g : Graph) (u : nat) : Graph :=
  if existsb (fun wn => Nat.eqb (fst wn) u) g then g else g ++ [(u, [])].

Definition add_nodes_from (us : list nat) (g : Graph) : Graph :=
  fold_left add_node us g.

Definition add_edge (g : Graph) (e : nat * nat) : Graph :=
  add_nbr (snd e) (fst e) (add_nbr (fst e) (snd e) g).

Definition add_edges_from (es : list (nat * nat)) (g : Graph) : Graph :=
  fold_left add_edge es g.

Fixpoint neighbors (g : Graph) (u : nat) : list nat :=
  match g with
  | [] => []
  | (w, ns) :: g' => if Nat.eqb w u then ns else neighbors g' u
  end.

End nx.

(** ** Constants of [__init__] *)

(** Air density at 25 C. *)
Definition rho : R := 1.184.
(** 1 atm in Pascal. *)
Definition P_s : R := 101325.
(** Mass in kg. *)
Definition m : R := 0.2.
Definition robot_radius : R := 0.05.
(** Reference area of the sphere. *)
Definition area : R := 4 * PI * (robot_radius ^ 2).
(** Drag coefficient of a sphere. *)
Definition c_d : R := 0.47.

(** [xmin, xmax, ymin, ymax]. *)
Definition bounds : list R := [-5; 5; -5; 5].
Definition bounds0 : R := nth 0 bounds 0.
Definition bounds1 : R := nth 1 bounds 0.

Definition n_agents : nat := 3.
Definition state_dim : nat := 2.
Definition action_dim : nat := 2.

Definition final_goal : vec2 := (0, 0).

Definition K_p : R := 1.0 * 5.
Definition K_d : R := 0.5 * 5.

Definition G : nx.Graph :=
  nx.add_edges_from [(0, 1); (1, 2); (2, 0)]%nat
    (nx.add_nodes_from (seq 0 n_agents) []).

Definition _max_episode_steps : nat := 450.
Definition dt : R := 0.033.

Definition formation_ref : list vec2 :=
  [(0, 0); (1, 0); (1 / sqrt 2, 1 / sqrt 2)].

Definition num_dist_seeds : nat := 5.

(** ** The instance *)

(** One time slice [v[k]] of a stored simulation: a [res_x] by [res_y] grid
    of velocity samples. *)
Definition Frame : Type := list (list vec2).

(** The entry [wind_sim_dict[name]] once loaded: the keys ['v'] and ['t']
    (the key ['p'] is allocated and never read). *)
Record SimData : Type := mkSimData {
  sim_v : list Frame;
  sim_t : list R
}.

(** [config].  The base folder is given by its content: every simulation
    directory with its [.nc] files in file-name order, each file as the time
    stamp parsed from its name and the fields [ux], [uy] it holds. *)
Record Config : Type := mkConfig {
  turbulence_model : string;
  turbulence_base_folder : list (string * list (R * Frame))
}.

Record Self : Type := mkSelf {
  config : Config;
  p : list vec2;
  vel : list vec2;
  leader_goal : vec2;
  iter : nat;
  done : bool;
  turbulence_seeds : list vec2;
  direction : list R;
  all_sims : list string;
  wind_sim_dict : list (string * option SimData);
  selected_sim : option string;
  np_random : RandomState
}.

Definition set_p (x : list vec2) (s : Self) : Self :=
  mkSelf (config s) x (vel s) (leader_goal s) (iter s) (done s)
    (turbulence_seeds s) (direction s) (all_sims s) (wind_sim_dict s)
    (selected_sim s) (np_random s).

Definition set_vel (x : list vec2) (s : Self) : Self :=
  mkSelf (config s) (p s) x (leader_goal s) (iter s) (done s)
    (turbulence_seeds s) (direction s) (all_sims s) (wind_sim_dict s)
    (selected_sim s) (np_random s).

Definition set_leader_goal (x : vec2) (s : Self) : Self :=
  mkSelf (config s) (p s) (vel s) x (iter s) (done s)
    (turbulence_seeds s) (direction s) (all_sims s) (wind_sim_dict s)
    (selected_sim s) (np_random s).

Definition set_iter (x : nat) (s : Self) : Self :=
  mkSelf (config s) (p s) (vel s) (leader_goal s) x (done s)
    (turbulence_seeds s) (direction s) (all_sims s) (wind_sim_dict s)
    (selected_sim s) (np_random s).

Definition set_done (x : bool) (s : Self) : Self :=
  mkSelf (config s) (p s) (vel s) (leader_goal s) (iter s) x
    (turbulence_seeds s) (direction s) (all_sims s) (wind_sim_dict s)
    (selected_sim s) (np_random s).

Definition set_turbulence (seeds : list vec2) (dir : list R) (s : Self)
  : Self :=
  mkSelf (config s) (p s) (vel s) (leader_goal s) (iter s) (done s)
    seeds dir (all_sims s) (wind_sim_dict s) (selected_sim s) (np_random s).

Definition set_wind_sim_dict (x : list (string * option SimData)) (s : Self)
  : Self :=
  mkSelf (config s) (p s) (vel s) (leader_goal s) (iter s) (done s)
    (turbulence_seeds s) (direction s) (all_sims s) x
    (selected_sim s) (np_random s).

Definition set_selected_sim (x : option string) (s : Self) : Self :=
  mkSelf (config s) (p s) (vel s) (leader_goal s) (iter s) (done s)
    (turbulence_seeds s) (direction s) (all_sims s) (wind_sim_dict s)
    x (np_random s).

Definition set_np_random (x : RandomState) (s : Self) : Self :=
  mkSelf (config s) (p s) (vel s) (leader_goal s) (iter s) (done s)
    (turbulence_seeds s) (direction s) (all_sims s) (wind_sim_dict s)
    (selected_sim s) x.

(** A Python dict with string keys. *)
Fixpoint dict_get {A : Type} (k : string) (d : list (string * A))
  : option A :=
  match d with
  | [] => None
  | (k', a) :: d' => if String.eqb k' k then Some a else dict_get k d'
  end.

Fixpoint dict_set {A : Type} (k : string) (a : A) (d : list (string * A))
  : list (string * A) :=
  match d with
  | [] => [(k, a)]
  | (k', a') :: d' =>
      if String.eqb k' k then (k', a) :: d' else (k', a') :: dict_set k a d'
  end.

(** [(bounds[1] - bounds[0]) * u + bounds[0]] on both coordinates. *)
Definition in_bounds (u : vec2) : vec2 :=
  ((bounds1 - bounds0) * fst u + bounds0,
   (bounds1 - bounds0) * snd u + bounds0).

(** *** [setup_random_turbulence] *)

Definition setup_random_turbulence (self : Self) : Self :=
  let '(us, rs1) := rand (num_dist_seeds * 2) (np_random self) in
  let '(ds, rs2) := rand num_dist_seeds rs1 in
  set_np_random rs2
    (set_turbulence
       (map (fun u => (fst u * (bounds1 - bounds0) + bounds0,
                       snd u * (bounds1 - bounds0) + bounds0)) (pairs us))
       (map (fun d => sign (d - 0.5)) ds)
       self).

(** *** [_setup_NS_turbulence]

    The files of a simulation directory, loaded (lines 109-129): the
    non-empty check, then the time stamps and the velocity frames in file
    order.  The message of the failing assertion names an unbound variable
    ([selected_sim] without [self.]), so what is raised is a [NameError]. *)
Definition load_sim_files (sim_files : list (R * Frame)) : result SimData :=
  let num_t := List.length sim_files in
  if (0 <? num_t)%nat
  then Ok (mkSimData (map snd sim_files) (map fst sim_files))
  else Raise NameError.

Definition _setup_NS_turbulence (self : Self) : result unit * Self :=
  let '(sim_idx, rs) := randint (List.length (all_sims self)) (np_random self) in
  let self := set_np_random rs self in
  match nth_error (all_sims self) sim_idx with
  | None => (Raise IndexError, self)
  | Some name =>
      let self := set_selected_sim (Some name) self in
      match dict_get name (wind_sim_dict self) with
      | Some _ => (Ok tt, self)
      | None =>
          let self :=
            set_wind_sim_dict (dict_set name None (wind_sim_dict self)) self in
          let sim_files :=
            match dict_get name (turbulence_base_folder (config self)) with
            | Some fs => fs
            | None => []
            end in
          match load_sim_files sim_files with
          | Raise e => (Raise e, self)
          | Ok sim =>
              (Ok tt,
               set_wind_sim_dict
                 (dict_set name (Some sim) (wind_sim_dict self)) self)
          end
      end
  end.

(** *** [__init__] *)

Definition __init__ (config : Config) (rs : RandomState) : result Self :=
  let '(us, rs1) := rand (n_agents * 2) rs in
  let p0 := map in_bounds (pairs us) in
  let self :=
    mkSelf config p0 (zeros (List.length p0)) (2, 2) 0 false [] [] [] [] None rs1 in
  if String.eqb (turbulence_model config) "random" then
    Ok (setup_random_turbulence self)
  else if String.eqb (turbulence_model config) "NS" then
    let sims := map fst (turbulence_base_folder config) in
    if (0 <? List.length sims)%nat
    then Ok (mkSelf config p0 (zeros (List.length p0)) (2, 2) 0 false [] []
               sims [] None rs1)
    else Raise (AssertionError "There are no valid simulation")
  else Ok self.

(** *** [reset] *)

Definition reset (self : Self) : result (list R) * Self :=
  let '(us, rs1) := rand (n_agents * 2) (np_random self) in
  let self := set_np_random rs1 self in
  let self := set_p (map in_bounds (pairs us)) self in
  let self := set_vel (zeros (List.length (p self))) self in
  let self := set_iter 0 self in
  let self := set_done false self in
  if String.eqb (turbulence_model (config self)) "random" then
    let self := setup_random_turbulence self in
    (Ok (reshape (p self)), self)
  else if String.eqb (turbulence_model (config self)) "NS" then
    match _setup_NS_turbulence self with
    | (Raise e, self) => (Raise e, self)
    | (Ok _, self) => (Ok (reshape (p self)), self)
    end
  else (Ok (reshape (p self)), self).

(** *** [wind_acceleration]: quadratic drag, row by row *)

Definition wind_acc_row (v_wr : vec2) : vec2 :=
  let v_wr_norm := norm v_wr in
  (0.5 * rho * c_d * area * v_wr_norm * fst v_wr / m,
   0.5 * rho * c_d * area * v_wr_norm * snd v_wr / m).

Definition wind_acceleration (v_wr : list vec2) : list vec2 :=
  map wind_acc_row v_wr.

(** *** [_simulate_second_order] *)

(** The body of the loop for agent [i]: the position first, from the
    velocity not yet updated, then the velocity. *)
Definition simulate_agent (action wind_acc : list vec2) (self : Self)
  (i : nat) : Self :=
  let self :=
    set_p (set_row i (vadd (row i (p self)) (smul dt (row i (vel self))))
             (p self)) self in
  set_vel (set_row i
             (vadd (row i (vel self))
                (smul dt (vadd (row i action) (row i wind_acc))))
             (vel self)) self.

Definition _simulate_second_order (action v_wr : list vec2) (self : Self)
  : Self :=
  let wind_acc := wind_acceleration v_wr in
  fold_left (simulate_agent action wind_acc) (seq 0 n_agents) self.

(** *** [compute_reward] *)

Definition compute_reward (self : Self) : R :=
  fold_left
    (fun reward i =>
       fold_left
         (fun reward j =>
            reward
            + (norm (vsub (row i (p self)) (row j (p self)))
               - norm (vsub (row i formation_ref) (row j formation_ref))))
         (nx.neighbors G i) reward)
    (seq 0 n_agents) 0.

(** *** [step], lines 157-170: the goal point and the formation law *)

(** The goal point moves toward [final_goal] once more than 100 steps have
    been taken; the result is [leader_vel] and the instance with the goal
    moved. *)
Definition propagate_goal (self : Self) : vec2 * Self :=
  if (100 <? iter self)%nat then
    let leader_vel := smul (0.2 * K_p) (vsub final_goal (leader_goal self)) in
    (leader_vel,
     set_leader_goal (vadd (leader_goal self) (smul dt leader_vel)) self)
  else (vzero, self).

(** One turn of the inner loop: [acc[i, :] += ...] for the neighbor [j]. *)
Definition follower_term (self : Self) (i j : nat) : vec2 :=
  vsub
    (smul (- K_p)
       (vadd (vsub (row i (p self)) (row j (p self)))
          (vsub (row i formation_ref) (row j formation_ref))))
    (smul K_d (vsub (row i (vel self)) (row j (vel self)))).

Definition formation_acc (self : Self) (leader_vel : vec2) : list vec2 :=
  let acc := zeros n_agents in
  let acc :=
    set_row 0
      (vadd (smul (0.5 * K_p) (vsub (leader_goal self) (row 0 (p self))))
         (smul K_d (vsub leader_vel (row 0 (vel self)))))
      acc in
  fold_left
    (fun acc i =>
       fold_left
         (fun acc j => set_row i (vadd (row i acc) (follower_term self i j)) acc)
         (nx.neighbors G i) acc)
    (seq 1 (n_agents - 1)) acc.

(** The accelerations [step] commands in the state [self]. *)
Definition step_acc (self : Self) : list vec2 :=
  let '(leader_vel, self1) := propagate_goal self in
  formation_acc self1 leader_vel.

(** *** [get_disturbance], the branch ['random'] *)

(** The velocity a seed with its direction induces at a query point, before
    the scaling by the range of the bounds. *)
Definition seed_velocity (q : vec2) (sd : vec2 * R) : vec2 :=
  let D := vsub (fst sd) q in
  let D_norm := norm D in
  (snd sd * (- snd D / D_norm ^ 2), snd sd * (fst D / D_norm ^ 2)).

Definition random_disturbance (self : Self) (query_points : list vec2)
  : list vec2 :=
  let range := bounds1 - bounds0 in
  map (fun q =>
         smul range
           (vsum (map (seed_velocity q)
                    (combine (turbulence_seeds self) (direction self)))))
    query_points.

(** *** [get_disturbance], the branch ['NS']: lines 246-257 *)

(** The two frames around [current_t] and the time coordinate handed to the
    sampler. *)
Definition time_bracket (all_t : list R) (current_t : R)
  : result (Z * Z * R) :=
  match getitem all_t (-1) with
  | None => Raise IndexError
  | Some t_max =>
      if Rle_dec current_t t_max then
        match where_ge all_t current_t 0 with
        | [] => Raise (AssertionError "Theres is no turbulence data")
        | idx0 :: _ =>
            let idx_left := Z.max (idx0 - 1) 0 in
            let idx_right := (idx_left + 1)%Z in
            match getitem all_t idx_left, getitem all_t idx_right with
            | Some t_left, Some t_right =>
                Ok (idx_left, idx_right,
                    2 * ((current_t - t_left) / (t_right - t_left)) - 1.0)
            | _, _ => Raise IndexError
            end
        end
      else
        Raise (AssertionError
                 "Current simulation time is greater than max. simulation time")
  end.

Definition scaled_query_point (q : vec2) : vec2 :=
  (2 * ((fst q - bounds0) / (bounds1 - bounds0)) - 1,
   2 * ((snd q - bounds0) / (bounds1 - bounds0)) - 1).

Section Disturbance.

(** [torch.nn.functional.grid_sample] with [mode='bilinear'],
    [padding_mode='border'], [align_corners=True], on the frames [Z] and the
    grid of points [(x, y, time)]: the library's, taken as given. *)
Variable grid_sample : list Frame -> list (R * R * R) -> list vec2.

Definition NS_disturbance (self : Self) (query_points : list vec2)
  : result (list vec2) :=
  let current_t := INR (iter self) * dt in
  match selected_sim self with
  | None => Raise KeyError
  | Some name =>
      match dict_get name (wind_sim_dict self) with
      | Some (Some sim) =>
          let all_t := sim_t sim in
          match time_bracket all_t current_t with
          | Raise e => Raise e
          | Ok (idx_left, idx_right, padded_current_time) =>
              let Z := slice (sim_v sim) idx_left (idx_right + 1) in
              Ok (grid_sample Z
                    (map (fun q =>
                            (fst (scaled_query_point q),
                             snd (scaled_query_point q),
                             padded_current_time))
                       query_points))
          end
      | _ => Raise KeyError
      end
  end.

Definition get_disturbance (self : Self) (query_points : list vec2)
  : result (list vec2) * Self :=
  if String.eqb (turbulence_model (config self)) "random" then
    let self := setup_random_turbulence self in
    (Ok (random_disturbance self query_points), self)
  else if String.eqb (turbulence_model (config self)) "NS" then
    (NS_disturbance self query_points, self)
  else (Raise UnboundLocalError, self).

(** *** [step]

    The pressures [P_d] and [P_t] of lines 184-186 are computed and dropped;
    they are left out. *)
Definition step (action : list R) (self : Self)
  : result (list R * R * bool * unit) * Self :=
  let '(leader_vel, self) := propagate_goal self in
  let acc := formation_acc self leader_vel in
  match get_disturbance self (p self) with
  | (Raise e, self) => (Raise e, self)
  | (Ok v_we, self) =>
      let v_wr := msub v_we (vel self) in
      let self := _simulate_second_order acc v_wr self in
      let observation := reshape (p self) in
      let reward := compute_reward self in
      let self := set_iter (iter self + 1) self in
      let done := (_max_episode_steps <=? iter self)%nat in
      (Ok (observation, reward, done, tt), self)
  end.

(** The instance after [k] calls of [step] with the actions [actions 0],
    ..., [actions (k - 1)], whatever each call returned. *)
Fixpoint after_steps (actions : nat -> list R) (k : nat) (self : Self)
  : Self :=
  match k with
  | O => self
  | S k' => snd (step (actions k') (after_steps actions k' self))
  end.

End Disturbance.

Section FirstOrder.

Variable grid_sample : list Frame -> list (R * R * R) -> list vec2.

(** *** [_simulate]: the first-order dynamics, kept in the class and not
    called by [step] *)

(** The body of the loop for agent [i]: the velocity is assigned first, and
    the position moves with the velocity just assigned. *)
Definition simulate_first_order_agent
  (action velocity_disturbance : list vec2) (self : Self) (i : nat) : Self :=
  let self :=
    set_vel (set_row i (vadd (row i action) (row i velocity_disturbance))
               (vel self)) self in
  set_p (set_row i (vadd (row i (p self)) (smul dt (row i (vel self))))
           (p self)) self.

Definition _simulate (action : list vec2) (self : Self)
  : result unit * Self :=
  match get_disturbance grid_sample self (p self) with
  | (Raise e, self) => (Raise e, self)
  | (Ok velocity_disturbance, self) =>
      (Ok tt,
       fold_left (simulate_first_order_agent action velocity_disturbance)
         (seq 0 n_agents) self)
  end.

End FirstOrder.

(** Whether the disturbance query of [step] returns in the state [self]:
    always with the random turbulence; with the stored one when a simulation
    is selected and loaded and the time of the step has its two frames. *)
Definition disturbance_returns (self : Self) : bool :=
  if String.eqb (turbulence_model (config self)) "random" then true
  else if String.eqb (turbulence_model (config self)) "NS" then
    match selected_sim self with
    | None => false
    | Some name =>
        match dict_get name (wind_sim_dict self) with
        | Some (Some sim) =>
            is_ok (time_bracket (sim_t sim) (INR (iter self) * dt))
        | _ => false
        end
    end
  else false.

(** ** Instances used as examples *)

Definition example_config : Config := mkConfig "random" [].

(** A stream whose every draw is [0.25]. *)
Definition example_random : RandomState := mkRandomState (fun _ => 0.25) 0.

Definition example_self : Self :=
  mkSelf example_config [(0, 0); (1, 0); (0, 1)] [(1, 0); (0, 1); (0, 0)]
    (2, 2) 0 false [] [] [] [] None example_random.

(** The agents on the reference points moved by [(3, -1)]. *)
Definition translated_self : Self :=
  set_p (map (fun r => vadd r (3, -1)) formation_ref) example_self.

(** The stored turbulence with one simulation of one file, stamped 0,
    selected and loaded; no step taken yet. *)
Definition single_file_config : Config :=
  mkConfig "NS" [("sim_1x1_a"%string, [(0, [[(0, 0)]])])].

Definition single_file_self : Self :=
  mkSelf single_file_config [(0, 0); (1, 0); (0, 1)] (zeros 3) (2, 2) 0 false
    [] [] ["sim_1x1_a"%string]
    [("sim_1x1_a"%string, Some (mkSimData [[[(0, 0)]]] [0]))]
    (Some "sim_1x1_a"%string) example_random.

(** A stream whose draw number 10, the first one used for a direction by
    the first query, is [0.5]; every other draw is [0.25]. *)
Definition half_random : RandomState :=
  mkRandomState (fun k => if Nat.eqb k 10 then 0.5 else 0.25) 0.

Definition half_self : Self := set_np_random half_random example_self.

(** An instance configured with a turbulence model the class does not
    know. *)
Definition unknown_model_self : Self :=
  mkSelf (mkConfig "still" []) [(0, 0); (1, 0); (0, 1)] (zeros 3) (2, 2) 0
    false [] [] [] [] None example_random.


(** The stored turbulence with one simulation of two files, stamped 0 and
    1, selected and loaded; no step taken yet. *)
Definition two_file_sim : SimData :=
  mkSimData [[[(1, 0)]]; [[(0, 1)]]] [0; 1].

Definition two_file_self : Self :=
  mkSelf
    (mkConfig "NS"
       [("sim_1x1_b"%string, [(0, [[(1, 0)]]); (1, [[(0, 1)]])])])
    [(0, 0); (1, 0); (0, 1)] (zeros 3) (2, 2) 0 false [] []
    ["sim_1x1_b"%string] [("sim_1x1_b"%string, Some two_file_sim)]
    (Some "sim_1x1_b"%string) example_random.


(** * Properties *)

(** ** Rows of an array *)

Lemma set_row_length (i : nat) (x : vec2) (a : list vec2) :
  List.length (set_row i x a) = List.length a.
Proof.
  revert i; induction a as [|y a IH]; intros [|i]; simpl; auto.
Qed.

Lemma row_set_row_same (i : nat) (x : vec2) (a : list vec2) :
  (i < List.length a)%nat -> row i (set_row i x a) = x.
Proof.
  unfold row; revert i; induction a as [|y a IH]; intros [|i] Hi; simpl in *;
    try lia; auto.
  apply IH; lia.
Qed.

Lemma row_set_row_other (i j : nat) (x : vec2) (a : list vec2) :
  i <> j -> row j (set_row i x a) = row j a.
Proof.
  unfold row; revert i j; induction a as [|y a IH]; intros [|i] [|j] Hij;
    simpl; auto; try lia.
Qed.

Lemma vadd_zero_r (a : vec2) : vadd a vzero = a.
Proof. destruct a; unfold vadd, vzero; simpl; f_equal; lra. Qed.

Lemma vadd_zero_l (a : vec2) : vadd vzero a = a.
Proof. destruct a; unfold vadd, vzero; simpl; f_equal; lra. Qed.

Lemma smul_zero (c : R) : smul c vzero = vzero.
Proof. unfold smul, vzero; simpl; f_equal; lra. Qed.

Lemma rows_ext (a b : list vec2) :
  List.length a = List.length b ->
  (forall i, (i < List.length a)%nat -> row i a = row i b) -> a = b.
Proof.
  intros Hl Hr. apply (nth_ext a b vzero vzero Hl). exact Hr.
Qed.

(** ** The integrator *)

Section Integrator.

Variables action wind_acc : list vec2.

(** What the loop over the agents [l] leaves in every row. *)
Lemma simulate_agents_rows (l : list nat) :
  forall self,
    NoDup l ->
    (forall i, In i l ->
       (i < List.length (p self))%nat /\ (i < List.length (vel self))%nat) ->
    let self' := fold_left (simulate_agent action wind_acc) l self in
    List.length (p self') = List.length (p self) /\
    List.length (vel self') = List.length (vel self) /\
    forall i,
      (In i l ->
         row i (p self') = vadd (row i (p self)) (smul dt (row i (vel self))) /\
         row i (vel self')
         = vadd (row i (vel self))
             (smul dt (vadd (row i action) (row i wind_acc)))) /\
      (~ In i l ->
         row i (p self') = row i (p self) /\
         row i (vel self') = row i (vel self)).
Proof.
  induction l as [|k l IH]; intros self Hnd Hin; simpl.
  - repeat split; intros; tauto.
  - inversion Hnd as [|? ? Hk Hnd']; subst.
    destruct (Hin k (or_introl eq_refl)) as [Hkp Hkv].
    set (s1 := simulate_agent action wind_acc self k).
    assert (Hp1 : List.length (p s1) = List.length (p self))
      by (unfold s1, simulate_agent; simpl; apply set_row_length).
    assert (Hv1 : List.length (vel s1) = List.length (vel self))
      by (unfold s1, simulate_agent; simpl; apply set_row_length).
    destruct (IH s1 Hnd') as (Lp & Lv & Hrows).
    { intros i Hi. rewrite Hp1, Hv1. apply Hin. now right. }
    split; [congruence|]. split; [congruence|].
    intros i. destruct (Hrows i) as [Hin_l Hout_l].
    split.
    + intros [->|Hi].
      * destruct (Hout_l Hk) as [-> ->].
        unfold s1, simulate_agent; simpl.
        rewrite !row_set_row_same by assumption. auto.
      * destruct (Hin_l Hi) as [-> ->].
        assert (k <> i) by (intros ->; contradiction).
        unfold s1, simulate_agent; simpl.
        rewrite !row_set_row_other by assumption. auto.
    + intros Hni.
      assert (k <> i) by (intros ->; apply Hni; now left).
      destruct Hout_l as [-> ->]; [tauto|].
      unfold s1, simulate_agent; simpl.
      rewrite !row_set_row_other by assumption. auto.
Qed.

End Integrator.

(** C1.  One call of [_simulate_second_order] on an instance whose arrays
    have the shape [(n_agents, 2)] is a semi-implicit Euler step for every
    agent [i]: the new position is [p_i + dt * v_i] with the velocity from
    before the call, and the new velocity is
    [v_i + dt * (action_i + wind_acceleration_i)].  When every commanded
    acceleration and every wind acceleration is zero, each position moves by
    exactly [dt * v_i] and the velocity array is unchanged. *)
Theorem simulate_second_order_euler (action v_wr : list vec2) (self : Self) :
  List.length (p self) = n_agents ->
  List.length (vel self) = n_agents ->
  let self' := _simulate_second_order action v_wr self in
  (forall i, (i < n_agents)%nat ->
     row i (p self') = vadd (row i (p self)) (smul dt (row i (vel self))) /\
     row i (vel self')
     = vadd (row i (vel self))
         (smul dt (vadd (row i action) (row i (wind_acceleration v_wr))))) /\
  ((forall i, (i < n_agents)%nat ->
      row i action = vzero /\ row i (wind_acceleration v_wr) = vzero) ->
   (forall i, (i < n_agents)%nat ->
      vsub (row i (p self')) (row i (p self)) = smul dt (row i (vel self))) /\
   vel self' = vel self).
Proof.
  intros Hp Hv self'.
  destruct (simulate_agents_rows action (wind_acceleration v_wr)
              (seq 0 n_agents) self (seq_NoDup _ _)) as (Lp & Lv & Hrows).
  { intros i Hi. apply in_seq in Hi. rewrite Hp, Hv. lia. }
  fold (_simulate_second_order action v_wr self) in Lp, Lv, Hrows.
  fold self' in Lp, Lv, Hrows.
  assert (Hall : forall i, (i < n_agents)%nat ->
     row i (p self') = vadd (row i (p self)) (smul dt (row i (vel self))) /\
     row i (vel self')
     = vadd (row i (vel self))
         (smul dt (vadd (row i action) (row i (wind_acceleration v_wr))))).
  { intros i Hi. apply (Hrows i). apply in_seq. lia. }
  split; [exact Hall|].
  intros Hzero. split.
  - intros i Hi. destruct (Hall i Hi) as [-> _].
    destruct (row i (p self)) as [x y], (row i (vel self)) as [vx vy].
    unfold vsub, vadd, smul; simpl. f_equal; lra.
  - apply rows_ext; [exact Lv|].
    intros i Hi. rewrite Lv, Hv in Hi.
    destruct (Hall i Hi) as [_ ->]. destruct (Hzero i Hi) as [-> ->].
    rewrite vadd_zero_r, smul_zero, vadd_zero_r. reflexivity.
Qed.

(** ** Quadratic drag *)

Lemma norm_nonneg (a : vec2) : 0 <= norm a.
Proof. apply sqrt_pos. Qed.

Lemma norm_zero_iff (a : vec2) : norm a = 0 <-> a = vzero.
Proof.
  destruct a as [x y]; unfold norm, vzero; simpl. split.
  - intros H. apply sqrt_eq_0 in H; [|nra].
    assert (x = 0) by nra. assert (y = 0) by nra. subst; reflexivity.
  - intros H; inversion H; subst.
    replace (0 * 0 + 0 * 0) with 0 by lra. apply sqrt_0.
Qed.

Lemma norm_along_x (a : R) : 0 <= a -> norm (a, 0) = a.
Proof.
  intros Ha; unfold norm; simpl.
  replace (a * a + 0 * 0) with (a * a) by lra. now apply sqrt_square.
Qed.

Lemma drag_coefficient_pos : 0 < 0.5 * rho * c_d * area / m.
Proof.
  assert (HPI := PI_RGT_0).
  unfold rho, c_d, area, m, robot_radius. lra.
Qed.

Lemma wind_acc_row_scaled (v : vec2) :
  wind_acc_row v = smul (0.5 * rho * c_d * area / m * norm v) v.
Proof.
  destruct v as [x y]; unfold wind_acc_row, smul; cbv zeta; simpl fst; simpl snd.
  f_equal; unfold m; field; lra.
Qed.

(** C3.  [wind_acceleration] is quadratic drag with the constants of
    [__init__]: every row [v] of the relative wind is sent to
    [0.5 * rho * c_d * area / m * |v| * v]; a row [(a, 0)] with [a > 0] is
    sent to [(0.5 * rho * c_d * area / m * a^2, 0)]; the factor in front of
    [v] is never negative, so the drag points along [v]; and the drag is zero
    exactly when [v] is. *)
Theorem wind_acceleration_quadratic_drag :
  (rho = 1.184 /\ c_d = 0.47 /\ area = 4 * PI * 0.05 ^ 2 /\ m = 0.2) /\
  (forall v_wr,
     wind_acceleration v_wr
     = map (fun v => smul (0.5 * rho * c_d * area / m * norm v) v) v_wr) /\
  (forall a, 0 < a ->
     wind_acceleration [(a, 0)] = [(0.5 * rho * c_d * area / m * a ^ 2, 0)]) /\
  (forall v, 0 <= 0.5 * rho * c_d * area / m * norm v) /\
  (forall v, wind_acc_row v = vzero <-> v = vzero).
Proof.
  split; [repeat split; reflexivity|].
  split.
  { intros v_wr; unfold wind_acceleration. apply map_ext, wind_acc_row_scaled. }
  split.
  { intros a Ha; unfold wind_acceleration; simpl map.
    rewrite wind_acc_row_scaled, norm_along_x by lra.
    unfold smul; simpl. do 2 f_equal; lra. }
  split.
  { intros v. apply Rmult_le_pos;
      [apply Rlt_le, drag_coefficient_pos | apply norm_nonneg]. }
  intros v; split.
  - rewrite wind_acc_row_scaled. intros H.
    destruct (Req_dec (norm v) 0) as [Hn|Hn]; [now apply norm_zero_iff|].
    assert (Hc : 0.5 * rho * c_d * area / m * norm v <> 0).
    { apply Rmult_integral_contrapositive_currified; [|exact Hn].
      apply Rgt_not_eq, drag_coefficient_pos. }
    destruct v as [x y]; unfold smul, vzero in *; simpl in *.
    injection H as Hx Hy.
    apply Rmult_integral in Hx; apply Rmult_integral in Hy.
    destruct Hx as [Hx|Hx], Hy as [Hy|Hy]; try contradiction.
    rewrite Hx, Hy. reflexivity.
  - intros ->. rewrite wind_acc_row_scaled.
    unfold smul, vzero; simpl. f_equal; lra.
Qed.

Lemma wind_acceleration_quadratic_drag_witness :
  wind_acceleration [(2, 0)] = [(0.5 * rho * c_d * area / m * 2 ^ 2, 0)].
Proof.
  apply (proj1 (proj2 (proj2 wind_acceleration_quadratic_drag)) 2). lra.
Defined.

(** ** The formation law *)

Lemma G_neighbors :
  nx.neighbors G 0 = [1; 2]%nat /\
  nx.neighbors G 1 = [0; 2]%nat /\
  nx.neighbors G 2 = [1; 0]%nat.
Proof. repeat split; reflexivity. Qed.

Lemma vadd_assoc (a b c : vec2) : vadd (vadd a b) c = vadd a (vadd b c).
Proof. unfold vadd; simpl; f_equal; lra. Qed.

Section Accumulate.

Variable term : nat -> nat -> vec2.

(** The inner loop adds the terms of the neighbors to the row [i] alone. *)
Lemma accumulate_row (i : nat) (ns : list nat) :
  forall acc,
    (i < List.length acc)%nat ->
    let acc' :=
      fold_left (fun acc j => set_row i (vadd (row i acc) (term i j)) acc)
        ns acc in
    List.length acc' = List.length acc /\
    row i acc' = vadd (row i acc) (vsum (map (term i) ns)) /\
    forall k, k <> i -> row k acc' = row k acc.
Proof.
  induction ns as [|j ns IH]; intros acc Hi; simpl.
  - rewrite vadd_zero_r. auto.
  - destruct (IH (set_row i (vadd (row i acc) (term i j)) acc))
      as (L & Hrow & Hother).
    { now rewrite set_row_length. }
    rewrite set_row_length in L. split; [exact L|]. split.
    + rewrite Hrow, row_set_row_same by assumption. apply vadd_assoc.
    + intros k Hk. rewrite Hother by assumption.
      apply row_set_row_other. congruence.
Qed.

(** The outer loop over the agents [l] and, for each, over [nbrs]. *)
Lemma accumulate_rows (nbrs : nat -> list nat) (l : list nat) :
  forall acc,
    NoDup l ->
    (forall i, In i l -> (i < List.length acc)%nat) ->
    let acc' :=
      fold_left
        (fun acc i =>
           fold_left
             (fun acc j => set_row i (vadd (row i acc) (term i j)) acc)
             (nbrs i) acc)
        l acc in
    List.length acc' = List.length acc /\
    forall i,
      (In i l ->
         row i acc' = vadd (row i acc) (vsum (map (term i) (nbrs i)))) /\
      (~ In i l -> row i acc' = row i acc).
Proof.
  induction l as [|k l IH]; intros acc Hnd Hin; simpl.
  - split; [reflexivity|]. intros i; split; tauto.
  - inversion Hnd as [|? ? Hk Hnd']; subst.
    destruct (accumulate_row k (nbrs k) acc (Hin k (or_introl eq_refl)))
      as (L1 & Hrow1 & Hother1).
    set (acc1 :=
           fold_left (fun acc j => set_row k (vadd (row k acc) (term k j)) acc)
             (nbrs k) acc) in *.
    destruct (IH acc1 Hnd') as (L & Hrows).
    { intros i Hi. rewrite L1. apply Hin. now right. }
    split; [congruence|].
    intros i; destruct (Hrows i) as [Hin_l Hout_l]. split.
    + intros [->|Hi].
      * rewrite (Hout_l Hk). exact Hrow1.
      * rewrite (Hin_l Hi).
        assert (i <> k) by (intros ->; contradiction).
        now rewrite Hother1.
    + intros Hni. rewrite Hout_l by tauto.
      apply Hother1. intros ->. apply Hni. now left.
Qed.

End Accumulate.

(** C2.  The accelerations [step] commands in a state [self], with the goal
    point and [leader_vel] as the first lines of [step] leave them: the
    leader's is
    [0.5 * K_p * (leader_goal - p_0) + K_d * (leader_vel - v_0)], and every
    follower's [i >= 1] is the sum over its neighbors [j] in the formation
    graph of
    [- K_p * ((p_i - p_j) + (ref_i - ref_j)) - K_d * (v_i - v_j)]. *)
Theorem step_commanded_acceleration (self : Self) :
  let leader_vel := fst (propagate_goal self) in
  let goal := leader_goal (snd (propagate_goal self)) in
  row 0 (step_acc self)
  = vadd (smul (0.5 * K_p) (vsub goal (row 0 (p self))))
      (smul K_d (vsub leader_vel (row 0 (vel self)))) /\
  forall i, (1 <= i < n_agents)%nat ->
    row i (step_acc self)
    = vsum
        (map (fun j =>
                vsub
                  (smul (- K_p)
                     (vadd (vsub (row i (p self)) (row j (p self)))
                        (vsub (row i formation_ref) (row j formation_ref))))
                  (smul K_d (vsub (row i (vel self)) (row j (vel self)))))
           (nx.neighbors G i)).
Proof.
  intros leader_vel goal.
  assert (Hpv : p (snd (propagate_goal self)) = p self /\
                vel (snd (propagate_goal self)) = vel self).
  { unfold propagate_goal. destruct (100 <? iter self)%nat; simpl; auto. }
  destruct Hpv as [Hp Hv].
  unfold step_acc.
  destruct (propagate_goal self) as [lv self1] eqn:E.
  simpl in leader_vel, goal, Hp, Hv. subst leader_vel goal.
  unfold formation_acc.
  match goal with
  | |- context [fold_left _ _ ?a] => set (acc0 := a)
  end.
  assert (L0 : List.length acc0 = n_agents)
    by (unfold acc0; rewrite set_row_length; apply repeat_length).
  destruct (accumulate_rows (follower_term self1) (nx.neighbors G)
              (seq 1 (n_agents - 1)) acc0 (seq_NoDup _ _)) as (_ & Hrows).
  { intros i Hi. apply in_seq in Hi. rewrite L0. unfold n_agents in *. lia. }
  split.
  - destruct (Hrows 0%nat) as [_ ->].
    + unfold acc0. rewrite row_set_row_same by (simpl; lia).
      now rewrite Hp, Hv.
    + intros Hi. apply in_seq in Hi. lia.
  - intros i Hi. destruct (Hrows i) as [-> _].
    + unfold acc0. rewrite row_set_row_other by lia.
      replace (row i (zeros n_agents)) with vzero.
      * rewrite vadd_zero_l. unfold follower_term. now rewrite Hp, Hv.
      * unfold row, zeros. symmetry. apply nth_repeat.
    + apply in_seq. unfold n_agents in *. lia.
Qed.

Lemma step_commanded_acceleration_witness :
  row 1 (step_acc example_self)
  = vsum
      (map (fun j =>
              vsub
                (smul (- K_p)
                   (vadd (vsub (row 1 (p example_self)) (row j (p example_self)))
                      (vsub (row 1 formation_ref) (row j formation_ref))))
                (smul K_d
                   (vsub (row 1 (vel example_self)) (row j (vel example_self)))))
         (nx.neighbors G 1)).
Proof.
  apply (proj2 (step_commanded_acceleration example_self) 1%nat).
  unfold n_agents; lia.
Defined.

(** [step] hands the accelerations [step_acc] to the integrator. *)
Lemma step_integrates_step_acc
  (grid_sample : list Frame -> list (R * R * R) -> list vec2)
  (action : list R) (self : Self) :
  match get_disturbance grid_sample (snd (propagate_goal self)) (p self) with
  | (Ok v_we, self2) =>
      let self3 :=
        _simulate_second_order (step_acc self) (msub v_we (vel self2)) self2 in
      p (snd (step grid_sample action self)) = p self3 /\
      vel (snd (step grid_sample action self)) = vel self3
  | (Raise _, _) => True
  end.
Proof.
  assert (Hp : p (snd (propagate_goal self)) = p self)
    by (unfold propagate_goal; destruct (100 <? iter self)%nat; reflexivity).
  unfold step, step_acc.
  destruct (propagate_goal self) as [lv self1]; simpl in *. rewrite Hp.
  destruct (get_disturbance grid_sample self1 (p self)) as [[v_we|e] self2];
    simpl; auto.
Qed.

Lemma wind_acc_row_zero : wind_acc_row vzero = vzero.
Proof.
  rewrite wind_acc_row_scaled. unfold smul, vzero; simpl. f_equal; lra.
Qed.

Lemma simulate_second_order_euler_witness :
  vel (_simulate_second_order (zeros 3) (zeros 3) example_self)
  = vel example_self.
Proof.
  apply (proj2 (simulate_second_order_euler (zeros 3) (zeros 3) example_self
                  eq_refl eq_refl)).
  intros i Hi. unfold n_agents in Hi.
  destruct i as [|[|[|i]]]; try lia; split; try reflexivity;
    apply wind_acc_row_zero.
Defined.

(** ** The reward *)

Lemma norm_vsub_sym (a b : vec2) : norm (vsub a b) = norm (vsub b a).
Proof. unfold norm, vsub; simpl. f_equal. ring. Qed.

Lemma vsub_translate (a b t : vec2) : vsub (vadd a t) (vadd b t) = vsub a b.
Proof. unfold vsub, vadd; simpl. f_equal; ring. Qed.

Section NestedSum.

Variable term : nat -> nat -> R.
Variable nbrs : nat -> list nat.

Lemma inner_sum (i : nat) (ns : list nat) :
  forall r, fold_left (fun r j => r + term i j) ns r
            = r + rsum (map (term i) ns).
Proof.
  induction ns as [|j ns IH]; intros r; simpl; [lra|].
  rewrite IH. lra.
Qed.

Lemma nested_sum (l : list nat) :
  forall r,
    fold_left (fun r i => fold_left (fun r j => r + term i j) (nbrs i) r) l r
    = r + rsum (map (fun i => rsum (map (term i) (nbrs i))) l).
Proof.
  induction l as [|i l IH]; intros r; simpl; [lra|].
  rewrite IH, inner_sum. lra.
Qed.

End NestedSum.

(** C7.  [compute_reward] is the sum over every node [i] of [0 .. N-1] and
    every neighbor [j] of [i] of [|p_i - p_j| - |ref_i - ref_j|]; on the
    3-cycle that is twice the sum over the edges [(0,1)], [(1,2)], [(2,0)],
    the leader's edges among them; and when every position is the reference
    point moved by one translation [t], the reward is 0. *)
Theorem compute_reward_double_sum (self : Self) :
  let err i j :=
    norm (vsub (row i (p self)) (row j (p self)))
    - norm (vsub (row i formation_ref) (row j formation_ref)) in
  compute_reward self
  = rsum (map (fun i => rsum (map (err i) (nx.neighbors G i)))
            (seq 0 n_agents)) /\
  compute_reward self = 2 * (err 0%nat 1%nat + err 1%nat 2%nat + err 2%nat 0%nat) /\
  forall t,
    (forall i, (i < n_agents)%nat ->
       row i (p self) = vadd (row i formation_ref) t) ->
    compute_reward self = 0.
Proof.
  intros err.
  assert (Hsum : compute_reward self
                 = rsum (map (fun i => rsum (map (err i) (nx.neighbors G i)))
                           (seq 0 n_agents))).
  { unfold compute_reward.
    rewrite (nested_sum err (nx.neighbors G)). lra. }
  assert (Hedges : compute_reward self = 2 * (err 0%nat 1%nat + err 1%nat 2%nat + err 2%nat 0%nat)).
  { rewrite Hsum. unfold n_agents; simpl.
    assert (S : forall i j, err i j = err j i).
    { intros i j; unfold err.
      now rewrite (norm_vsub_sym (row i (p self))),
        (norm_vsub_sym (row i formation_ref)). }
    rewrite (S 1 0)%nat, (S 0 2)%nat, (S 2 1)%nat. lra. }
  split; [exact Hsum|]. split; [exact Hedges|].
  intros t Ht. rewrite Hedges.
  assert (Z : forall i j, (i < n_agents)%nat -> (j < n_agents)%nat ->
                          err i j = 0).
  { intros i j Hi Hj. unfold err.
    rewrite (Ht i Hi), (Ht j Hj), vsub_translate. lra. }
  unfold n_agents in Z.
  rewrite (Z 0 1)%nat, (Z 1 2)%nat, (Z 2 0)%nat by lia. lra.
Qed.

Lemma compute_reward_double_sum_witness :
  compute_reward translated_self = 0.
Proof.
  apply (proj2 (proj2 (compute_reward_double_sum translated_self)) (3, -1)).
  intros i Hi. unfold n_agents in Hi.
  destruct i as [|[|[|i]]]; try lia; reflexivity.
Defined.

(** ** The episode counter *)

Section Episode.

Variable grid_sample : list Frame -> list (R * R * R) -> list vec2.

Lemma propagate_goal_keeps (self : Self) :
  let self1 := snd (propagate_goal self) in
  config self1 = config self /\ iter self1 = iter self /\
  selected_sim self1 = selected_sim self /\
  wind_sim_dict self1 = wind_sim_dict self /\
  p self1 = p self /\ vel self1 = vel self.
Proof.
  unfold propagate_goal. destruct (100 <? iter self)%nat; simpl; auto 10.
Qed.

Lemma disturbance_returns_propagate (self : Self) :
  disturbance_returns (snd (propagate_goal self)) = disturbance_returns self.
Proof.
  unfold propagate_goal. destruct (100 <? iter self)%nat; reflexivity.
Qed.

Lemma get_disturbance_is_ok (self : Self) (query_points : list vec2) :
  is_ok (fst (get_disturbance grid_sample self query_points))
  = disturbance_returns self.
Proof.
  unfold get_disturbance, disturbance_returns, NS_disturbance.
  destruct (String.eqb (turbulence_model (config self)) "random");
    [reflexivity|].
  destruct (String.eqb (turbulence_model (config self)) "NS");
    [|reflexivity].
  simpl. destruct (selected_sim self) as [name|]; [|reflexivity].
  destruct (dict_get name (wind_sim_dict self)) as [[sim|]|]; try reflexivity.
  destruct (time_bracket (sim_t sim) (INR (iter self) * dt))
    as [[[il ir] w]|e]; reflexivity.
Qed.

Lemma get_disturbance_keeps (self : Self) (query_points : list vec2) :
  let self2 := snd (get_disturbance grid_sample self query_points) in
  config self2 = config self /\ iter self2 = iter self /\
  selected_sim self2 = selected_sim self /\
  wind_sim_dict self2 = wind_sim_dict self.
Proof.
  unfold get_disturbance.
  destruct (String.eqb (turbulence_model (config self)) "random");
    [simpl; auto|].
  destruct (String.eqb (turbulence_model (config self)) "NS"); simpl; auto.
Qed.

(** A call of [step] returns exactly when its disturbance query does; the
    call that returns counts one step and reports whether the counter has
    reached [_max_episode_steps]. *)
Lemma step_is_ok (action : list R) (self : Self) :
  is_ok (fst (step grid_sample action self)) = disturbance_returns self.
Proof.
  rewrite <- disturbance_returns_propagate.
  rewrite <- (get_disturbance_is_ok _ (p (snd (propagate_goal self)))).
  unfold step. destruct (propagate_goal self) as [lv self1]; simpl.
  destruct (get_disturbance grid_sample self1 (p self1)) as [[v_we|e] self2];
    reflexivity.
Qed.

Lemma step_returned (action : list R) (self : Self) :
  disturbance_returns self = true ->
  exists o r,
    fst (step grid_sample action self)
    = Ok (o, r, (_max_episode_steps <=? iter self + 1)%nat, tt) /\
    iter (snd (step grid_sample action self)) = (iter self + 1)%nat /\
    config (snd (step grid_sample action self)) = config self.
Proof.
  intros Hret. rewrite <- disturbance_returns_propagate in Hret.
  rewrite <- (get_disturbance_is_ok _ (p (snd (propagate_goal self)))) in Hret.
  destruct (propagate_goal_keeps self) as (Hc & Hi & _).
  pose proof (get_disturbance_keeps (snd (propagate_goal self))
                (p (snd (propagate_goal self)))) as (Hc2 & Hi2 & _).
  unfold step. destruct (propagate_goal self) as [lv self1]; simpl in *.
  destruct (get_disturbance grid_sample self1 (p self1)) as [[v_we|e] self2];
    simpl in *; [|discriminate].
  eexists; eexists. split; [|split].
  - rewrite <- Hi, <- Hi2. reflexivity.
  - rewrite <- Hi, <- Hi2. reflexivity.
  - rewrite <- Hc, <- Hc2. reflexivity.
Qed.

Lemma step_raised (action : list R) (self : Self) :
  disturbance_returns self = false ->
  disturbance_returns (snd (step grid_sample action self)) = false.
Proof.
  intros Hret. rewrite <- disturbance_returns_propagate in Hret.
  pose proof (get_disturbance_is_ok (snd (propagate_goal self))
                (p (snd (propagate_goal self)))) as Hok.
  rewrite Hret in Hok.
  pose proof (get_disturbance_keeps (snd (propagate_goal self))
                (p (snd (propagate_goal self)))) as (Hc & Hi & Hs & Hd).
  unfold step. destruct (propagate_goal self) as [lv self1]; simpl in *.
  destruct (get_disturbance grid_sample self1 (p self1)) as [[v_we|e] self2];
    simpl in *; [discriminate|].
  unfold disturbance_returns in *. rewrite Hc, Hi, Hs, Hd. exact Hret.
Qed.

(** Calls that returned form a prefix of the calls made: after [k] calls
    either all returned and the counter is [k] further, or the query of the
    state reached raises, and goes on raising. *)
Lemma after_steps_counter (actions : nat -> list R) (self : Self) (k : nat) :
  (iter (after_steps grid_sample actions k self) = (iter self + k)%nat /\
   config (after_steps grid_sample actions k self) = config self) \/
  disturbance_returns (after_steps grid_sample actions k self) = false.
Proof.
  induction k as [|k IH]; simpl.
  - left. split; [lia|reflexivity].
  - destruct IH as [[Hi Hc]|Hstuck].
    + destruct (disturbance_returns (after_steps grid_sample actions k self)) eqn:Hret.
      * left. destruct (step_returned (actions k) _ Hret) as (o & r & _ & Hi' & Hc').
        rewrite Hi', Hc', Hi. split; [lia|exact Hc].
      * right. now apply step_raised.
    + right. now apply step_raised.
Qed.

Lemma reset_iter_config (self : Self) :
  iter (snd (reset self)) = 0%nat /\
  config (snd (reset self)) = config self.
Proof.
  unfold reset. simpl.
  destruct (String.eqb (turbulence_model (config self)) "random");
    [simpl; auto|].
  destruct (String.eqb (turbulence_model (config self)) "NS");
    [|simpl; auto].
  unfold _setup_NS_turbulence. simpl.
  match goal with |- context [nth_error ?l ?n] => destruct (nth_error l n) end;
    [|simpl; auto].
  simpl.
  match goal with |- context [dict_get ?k ?d] => destruct (dict_get k d) end;
    [simpl; auto|].
  simpl.
  match goal with |- context [load_sim_files ?f] => destruct (load_sim_files f) end;
    simpl; auto.
Qed.

Lemma random_disturbance_returns (self : Self) :
  turbulence_model (config self) = "random"%string ->
  disturbance_returns self = true.
Proof. intros H. unfold disturbance_returns. now rewrite H. Qed.

End Episode.

(** C8.  After [reset] the counter is 0, and of the calls of [step] that
    follow, the call number [k + 1] that returns reports
    [done = (450 <= k + 1)]: false on each of the first 449 calls, true on
    the 450th and on every later one; the flag depends on nothing but the
    counter.  With the random turbulence every call returns. *)
Theorem step_done_schedule
  (grid_sample : list Frame -> list (R * R * R) -> list vec2)
  (self : Self) (actions : nat -> list R) (k : nat) :
  let self0 := snd (reset self) in
  let call := step grid_sample (actions k)
                (after_steps grid_sample actions k self0) in
  iter self0 = 0%nat /\
  (forall o r d i, fst call = Ok (o, r, d, i) -> d = (450 <=? S k)%nat) /\
  (turbulence_model (config self) = "random"%string ->
   exists o r, fst call = Ok (o, r, (450 <=? S k)%nat, tt)).
Proof.
  intros self0 call.
  destruct (reset_iter_config self) as [Hi0 Hc0]. fold self0 in Hi0, Hc0.
  split; [exact Hi0|].
  pose proof (after_steps_counter grid_sample actions self0 k) as Hk.
  split.
  - intros o r d i Hcall.
    pose proof (step_is_ok grid_sample (actions k)
                  (after_steps grid_sample actions k self0)) as Hok.
    fold call in Hok. rewrite Hcall in Hok. simpl in Hok. symmetry in Hok.
    destruct Hk as [[Hi _]|Hstuck]; [|congruence].
    destruct (step_returned grid_sample (actions k) _ Hok) as (o' & r' & E & _).
    fold call in E. rewrite Hcall in E. injection E as _ _ ->.
    rewrite Hi, Hi0. replace (0 + k + 1)%nat with (S k) by lia. reflexivity.
  - intros Hrandom.
    assert (Hall : forall j,
              config (after_steps grid_sample actions j self0) = config self /\
              iter (after_steps grid_sample actions j self0) = j).
    { induction j as [|j [IHc IHi]]; simpl; [now split|].
      destruct (step_returned grid_sample (actions j)
                  (after_steps grid_sample actions j self0))
        as (o & r & _ & Hi' & Hc').
      { apply random_disturbance_returns. now rewrite IHc. }
      rewrite Hc', Hi', IHc, IHi. split; [reflexivity|lia]. }
    destruct (Hall k) as [Hck Hik].
    destruct (step_returned grid_sample (actions k)
                (after_steps grid_sample actions k self0))
      as (o & r & E & _).
    { apply random_disturbance_returns. now rewrite Hck. }
    exists o, r. fold call in E. rewrite E, Hik.
    replace (k + 1)%nat with (S k) by lia. reflexivity.
Qed.

Lemma step_done_schedule_witness :
  exists o r,
    fst (step (fun _ _ => []) []
           (after_steps (fun _ _ => []) (fun _ => []) 449
              (snd (reset example_self))))
    = Ok (o, r, true, tt).
Proof.
  apply (proj2 (proj2 (step_done_schedule (fun _ _ => []) example_self
                         (fun _ => []) 449))).
  reflexivity.
Defined.

(** C9.  [step] does not read its argument: from one state, two calls with
    any two actions return the same result and leave the same instance. *)
Theorem step_ignores_action
  (grid_sample : list Frame -> list (R * R * R) -> list vec2)
  (self : Self) (action1 action2 : list R) :
  step grid_sample action1 self = step grid_sample action2 self.
Proof. reflexivity. Qed.

(** ** The stored field: the frames around the time of a query *)

Lemma getitem_of_nat {A : Type} (l : list A) (i : nat) :
  getitem l (Z.of_nat i) = nth_error l i.
Proof.
  unfold getitem. destruct (Z.leb_spec 0 (Z.of_nat i)); [|lia].
  now rewrite Nat2Z.id.
Qed.

Lemma getitem_last {A : Type} (l : list A) (d : A) :
  l <> [] -> getitem l (-1) = Some (last l d).
Proof.
  intros Hl. unfold getitem. simpl (0 <=? -1)%Z.
  destruct (Z.leb_spec 0 (Z.of_nat (List.length l) + -1)) as [H|H].
  - replace (Z.to_nat (Z.of_nat (List.length l) + -1))
      with (List.length l - 1)%nat by lia.
    destruct (@exists_last _ l Hl) as (l' & a & ->).
    rewrite last_last, length_app; simpl.
    replace (List.length l' + 1 - 1)%nat with (List.length l') by lia.
    rewrite nth_error_app2 by lia. now rewrite Nat.sub_diag.
  - destruct l; [contradiction|]. simpl List.length in H. lia.
Qed.

Lemma getitem_last_nil {A : Type} : getitem (@nil A) (-1) = None.
Proof. reflexivity. Qed.

(** The first index [np.where] finds: the time there is not before [t], and
    every earlier time is. *)
Lemma where_ge_head (all_t : list R) (t : R) :
  forall k idx0 rest,
    where_ge all_t t k = idx0 :: rest ->
    exists n,
      idx0 = (k + Z.of_nat n)%Z /\
      (exists tn, nth_error all_t n = Some tn /\ t <= tn) /\
      forall j tj, (j < n)%nat -> nth_error all_t j = Some tj -> tj < t.
Proof.
  induction all_t as [|x l IH]; intros k idx0 rest H; simpl in H;
    [discriminate|].
  destruct (Rge_dec x t) as [Hx|Hx].
  - injection H as <- _. exists 0%nat. split; [lia|]. split.
    + exists x; split; [reflexivity|lra].
    + intros j tj Hj; lia.
  - destruct (IH _ _ _ H) as (n & -> & (tn & Hn & Htn) & Hbefore).
    exists (S n). split; [lia|]. split.
    + exists tn; split; assumption.
    + intros [|j] tj Hj Hnth; simpl in Hnth.
      * injection Hnth as <-. lra.
      * apply (Hbefore j); [lia|assumption].
Qed.

Lemma where_ge_nil (all_t : list R) (t : R) :
  forall k, where_ge all_t t k = [] -> forall x, In x all_t -> x < t.
Proof.
  induction all_t as [|y l IH]; intros k H x Hx; [contradiction|].
  simpl in H. destruct (Rge_dec y t) as [Hy|Hy]; [discriminate|].
  destruct Hx as [<-|Hx]; [lra|]. now apply (IH _ H).
Qed.

Lemma sorted_nth_lt (l : list R) :
  StronglySorted Rlt l ->
  forall i j ti tj,
    (i < j)%nat -> nth_error l i = Some ti -> nth_error l j = Some tj ->
    ti < tj.
Proof.
  induction 1 as [|x l Hs IH Hall]; intros i j ti tj Hij Hi Hj.
  - destruct i; discriminate.
  - destruct j as [|j]; [lia|]. simpl in Hj.
    destruct i as [|i]; simpl in Hi.
    + injection Hi as <-. rewrite Forall_forall in Hall.
      apply Hall. eapply nth_error_In; eassumption.
    + apply (IH i j); [lia|assumption|assumption].
Qed.

(** A query beyond the last time stamp fails the first assertion. *)
Lemma time_bracket_beyond (all_t : list R) (current_t : R) :
  all_t <> [] ->
  last all_t 0 < current_t ->
  time_bracket all_t current_t
  = Raise (AssertionError
             "Current simulation time is greater than max. simulation time").
Proof.
  intros Hne Hlt. unfold time_bracket.
  rewrite (getitem_last all_t 0 Hne).
  destruct (Rle_dec current_t (last all_t 0)); [lra|reflexivity].
Qed.

(** With two time stamps or more, a query up to the last one, the last one
    included, finds its two frames. *)
Lemma time_bracket_in_range (all_t : list R) (current_t : R) :
  (2 <= List.length all_t)%nat ->
  current_t <= last all_t 0 ->
  exists il t_left t_right,
    time_bracket all_t current_t
    = Ok (Z.of_nat il, Z.of_nat (S il),
          2 * ((current_t - t_left) / (t_right - t_left)) - 1.0) /\
    nth_error all_t il = Some t_left /\
    nth_error all_t (S il) = Some t_right /\
    ((il = 0%nat /\ current_t <= t_left) \/
     ((forall j tj, (j <= il)%nat -> nth_error all_t j = Some tj ->
                    tj < current_t) /\
      current_t <= t_right)).
Proof.
  intros Hlen Hle.
  assert (Hne : all_t <> []) by (destruct all_t; simpl in *; [lia|discriminate]).
  unfold time_bracket. rewrite (getitem_last all_t 0 Hne).
  destruct (Rle_dec current_t (last all_t 0)) as [_|]; [|contradiction].
  destruct (where_ge all_t current_t 0) as [|idx0 rest] eqn:W.
  - exfalso. pose proof (where_ge_nil _ _ _ W (last all_t 0)) as Hl.
    assert (In (last all_t 0) all_t).
    { destruct (@exists_last _ all_t Hne) as (l' & a & ->).
      rewrite last_last. apply in_or_app. right. now left. }
    specialize (Hl H). lra.
  - destruct (where_ge_head _ _ _ _ _ W) as (n & -> & (tn & Hn & Htn) & Hbefore).
    assert (Hnlen : (n < List.length all_t)%nat)
      by (apply nth_error_Some; congruence).
    destruct n as [|n].
    + (* the query is not after the first time stamp *)
      cbv zeta.
      replace (Z.max (0 + Z.of_nat 0 - 1) 0) with (Z.of_nat 0) by (simpl; lia).
      replace (Z.of_nat 0 + 1)%Z with (Z.of_nat 1) by (simpl; lia).
      destruct (nth_error all_t 1) as [t1|] eqn:H1;
        [|apply nth_error_None in H1; lia].
      rewrite !getitem_of_nat, Hn, H1.
      exists 0%nat, tn, t1. repeat split; auto.
    + cbv zeta.
      replace (Z.max (0 + Z.of_nat (S n) - 1) 0) with (Z.of_nat n) by lia.
      replace (Z.of_nat n + 1)%Z with (Z.of_nat (S n)) by lia.
      destruct (nth_error all_t n) as [tl|] eqn:Hl;
        [|apply nth_error_None in Hl; lia].
      rewrite !getitem_of_nat, Hn, Hl.
      exists n, tl, tn. repeat split; auto.
      right. split; [|assumption].
      intros j tj Hj Hnth. apply (Hbefore j); [lia|assumption].
Qed.

(** With one time stamp the right frame is out of range, whatever the time
    of the query up to that stamp. *)
Lemma time_bracket_single (ts current_t : R) :
  current_t <= ts -> time_bracket [ts] current_t = Raise IndexError.
Proof.
  intros Hle. unfold time_bracket. simpl.
  destruct (Rge_dec ts current_t); [|lra].
  destruct (Rle_dec current_t ts); [reflexivity|contradiction].
Qed.

Lemma time_bracket_single_raises (ts current_t : R) :
  is_ok (time_bracket [ts] current_t) = false.
Proof.
  destruct (Rle_dec current_t ts) as [H|H].
  - now rewrite time_bracket_single.
  - rewrite time_bracket_beyond; [reflexivity|discriminate|simpl; lra].
Qed.

Lemma dict_get_set {A : Type} (k : string) (a : A) (d : list (string * A)) :
  dict_get k (dict_set k a d) = Some a.
Proof.
  induction d as [|[k' a'] d IH]; simpl.
  - now rewrite String.eqb_refl.
  - destruct (String.eqb k' k) eqn:E; simpl; rewrite E; auto.
Qed.

Lemma dict_set_set {A : Type} (k : string) (a b : A) (d : list (string * A)) :
  dict_get k (dict_set k b (dict_set k a d)) = Some b.
Proof. apply dict_get_set. Qed.

(** [_setup_NS_turbulence] on a simulation not loaded before, whose
    directory holds the files [sim_files]: when the files pass the check,
    the simulation is selected and its entry holds what was loaded. *)
Lemma setup_NS_loads (self : Self) (name : string)
  (sim_files : list (R * Frame)) (sim : SimData) :
  nth_error (all_sims self)
    (fst (randint (List.length (all_sims self)) (np_random self)))
  = Some name ->
  dict_get name (wind_sim_dict self) = None ->
  dict_get name (turbulence_base_folder (config self)) = Some sim_files ->
  load_sim_files sim_files = Ok sim ->
  fst (_setup_NS_turbulence self) = Ok tt /\
  selected_sim (snd (_setup_NS_turbulence self)) = Some name /\
  dict_get name (wind_sim_dict (snd (_setup_NS_turbulence self)))
  = Some (Some sim) /\
  config (snd (_setup_NS_turbulence self)) = config self /\
  iter (snd (_setup_NS_turbulence self)) = iter self.
Proof.
  intros Hpick Hnew Hdir Hload. unfold _setup_NS_turbulence.
  simpl in *. rewrite Hpick. simpl. rewrite Hnew. simpl.
  rewrite Hdir, Hload. simpl. rewrite dict_get_set. auto.
Qed.

Section StoredField.

Variable grid_sample : list Frame -> list (R * R * R) -> list vec2.

Lemma NS_query (self : Self) (name : string) (sim : SimData)
  (query_points : list vec2) :
  turbulence_model (config self) = "NS"%string ->
  selected_sim self = Some name ->
  dict_get name (wind_sim_dict self) = Some (Some sim) ->
  fst (get_disturbance grid_sample self query_points)
  = match time_bracket (sim_t sim) (INR (iter self) * dt) with
    | Raise e => Raise e
    | Ok (idx_left, idx_right, padded_current_time) =>
        Ok (grid_sample (slice (sim_v sim) idx_left (idx_right + 1))
              (map (fun q =>
                      (fst (scaled_query_point q), snd (scaled_query_point q),
                       padded_current_time))
                 query_points))
    end.
Proof.
  intros Hm Hs Hd. unfold get_disturbance, NS_disturbance.
  rewrite Hm, Hs, Hd. simpl.
  destruct (time_bracket (sim_t sim) (INR (iter self) * dt))
    as [[[il ir] w]|e]; reflexivity.
Qed.

(** X18.  With the stored turbulence, a query made at a time beyond the last
    time stamp of the selected simulation raises the out-of-range assertion
    error, whatever the number of time stamps. *)
Lemma NS_query_beyond (self : Self) (name : string) (sim : SimData)
  (query_points : list vec2) :
  turbulence_model (config self) = "NS"%string ->
  selected_sim self = Some name ->
  dict_get name (wind_sim_dict self) = Some (Some sim) ->
  sim_t sim <> [] ->
  last (sim_t sim) 0 < INR (iter self) * dt ->
  fst (get_disturbance grid_sample self query_points)
  = Raise (AssertionError
             "Current simulation time is greater than max. simulation time").
Proof.
  intros Hm Hs Hd Hne Hlt. rewrite (NS_query self name sim) by assumption.
  now rewrite time_bracket_beyond.
Qed.

(** With two time stamps or more, a query at the last time stamp or before
    returns. *)
Lemma NS_query_in_range (self : Self) (name : string) (sim : SimData)
  (query_points : list vec2) :
  turbulence_model (config self) = "NS"%string ->
  selected_sim self = Some name ->
  dict_get name (wind_sim_dict self) = Some (Some sim) ->
  (2 <= List.length (sim_t sim))%nat ->
  INR (iter self) * dt <= last (sim_t sim) 0 ->
  is_ok (fst (get_disturbance grid_sample self query_points)) = true.
Proof.
  intros Hm Hs Hd Hlen Hle. rewrite (NS_query self name sim) by assumption.
  destruct (time_bracket_in_range _ _ Hlen Hle) as (il & tl & tr & -> & _).
  reflexivity.
Qed.

End StoredField.

(** C5, at the input where the code departs from it.  The selected
    simulation holds one file, stamped 0; the first query of the episode is
    made at the time [0 * dt = 0], the last time stamp itself, and raises
    [IndexError]. *)
Theorem boundary_query_single_file
  (grid_sample : list Frame -> list (R * R * R) -> list vec2)
  (query_points : list vec2) :
  load_sim_files [(0, [[(0, 0)]])] = Ok (mkSimData [[[(0, 0)]]] [0]) /\
  INR (iter single_file_self) * dt = last [0] 0 /\
  fst (get_disturbance grid_sample single_file_self query_points)
  = Raise IndexError.
Proof.
  split; [reflexivity|]. split; [simpl; lra|].
  rewrite (NS_query grid_sample single_file_self "sim_1x1_a"
             (mkSimData [[[(0, 0)]]] [0])) by reflexivity.
  simpl sim_t. rewrite time_bracket_single; [reflexivity|simpl; lra].
Qed.

(** C10.  A simulation directory with exactly one data file passes the check
    made at load time; whenever that simulation is the selected one, every
    disturbance query raises, whatever the step counter: with [IndexError]
    when the time of the query is not beyond the only time stamp (the right
    frame has index 1, the array of time stamps has length 1), and every
    call of [step] raises with it. *)
Theorem single_file_simulation_never_answers
  (grid_sample : list Frame -> list (R * R * R) -> list vec2)
  (self : Self) (name : string) (ts : R) (frame : Frame)
  (query_points : list vec2) :
  load_sim_files [(ts, frame)] = Ok (mkSimData [frame] [ts]) /\
  (turbulence_model (config self) = "NS"%string ->
   selected_sim self = Some name ->
   dict_get name (wind_sim_dict self) = Some (Some (mkSimData [frame] [ts])) ->
   (exists e, fst (get_disturbance grid_sample self query_points) = Raise e) /\
   (INR (iter self) * dt <= ts ->
    time_bracket [ts] (INR (iter self) * dt) = Raise IndexError /\
    fst (get_disturbance grid_sample self query_points) = Raise IndexError) /\
   (forall action, exists e, fst (step grid_sample action self) = Raise e)).
Proof.
  split; [reflexivity|]. intros Hm Hs Hd.
  assert (Hret : disturbance_returns self = false).
  { unfold disturbance_returns. rewrite Hm, Hs, Hd. simpl.
    apply time_bracket_single_raises. }
  split; [|split].
  - pose proof (get_disturbance_is_ok grid_sample self query_points) as Hok.
    rewrite Hret in Hok.
    destruct (fst (get_disturbance grid_sample self query_points)) as [v|e];
      [discriminate|]. now exists e.
  - intros Hle. split; [now apply time_bracket_single|].
    rewrite (NS_query grid_sample self name (mkSimData [frame] [ts]))
      by assumption.
    simpl sim_t. now rewrite time_bracket_single.
  - intros action. pose proof (step_is_ok grid_sample action self) as Hok.
    rewrite Hret in Hok.
    destruct (fst (step grid_sample action self)) as [v|e];
      [discriminate|]. now exists e.
Qed.

Lemma single_file_simulation_never_answers_witness :
  fst (get_disturbance (fun _ _ => []) single_file_self (p single_file_self))
  = Raise IndexError.
Proof.
  refine (proj2 (proj1 (proj2
            (proj2 (single_file_simulation_never_answers (fun _ _ => [])
                      single_file_self "sim_1x1_a" 0 [[(0, 0)]]
                      (p single_file_self))
               eq_refl eq_refl eq_refl)) _)).
  simpl. lra.
Defined.

Lemma time_bracket_three_files :
  time_bracket [0; 0.033; 0.066] (INR 1 * dt)
  = Ok (0%Z, 1%Z, 2 * ((INR 1 * dt - 0) / (0.033 - 0)) - 1.0).
Proof.
  unfold time_bracket, dt. simpl.
  destruct (Rle_dec (1 * 0.033) 0.066); [|lra].
  destruct (Rge_dec 0 (1 * 0.033)); [lra|].
  destruct (Rge_dec 0.033 (1 * 0.033)); [|lra].
  reflexivity.
Qed.

(** C6 as stated fails.  With the time stamps [0, 0.033, 0.066] and the
    query of step 1, at the time [1 * dt = 0.033], the last time stamp not
    after the query has index 1; the frames used are 0 and 1, not 1 and 2. *)
Lemma time_bracket_left_is_not_last_le :
  ~ (forall all_t current_t idx_left idx_right w,
       time_bracket all_t current_t = Ok (idx_left, idx_right, w) ->
       exists t_left,
         getitem all_t idx_left = Some t_left /\
         t_left <= current_t /\
         forall j tj,
           (idx_left < j)%Z -> getitem all_t j = Some tj ->
           ~ tj <= current_t).
Proof.
  intros H.
  destruct (H _ _ _ _ _ time_bracket_three_files) as (tl & _ & _ & Hlast).
  apply (Hlast 1%Z 0.033); [lia|reflexivity|].
  unfold dt; simpl; lra.
Qed.

(** C6, amended.  For time stamps in strictly increasing order, two or more,
    and a query not beyond the last one, the query returns with frames
    [idx_left] and [idx_left + 1], where [idx_left] is the index of the last
    time stamp strictly before the time of the query, or 0 when there is
    none; the weight handed to the sampler is the value at the time of the
    query of the affine map that sends the left time stamp to -1 and the
    right one to +1. *)
Theorem time_bracket_frames (all_t : list R) (current_t : R) :
  StronglySorted Rlt all_t ->
  (2 <= List.length all_t)%nat ->
  current_t <= last all_t 0 ->
  exists idx_left t_left t_right w,
    time_bracket all_t current_t = Ok (Z.of_nat idx_left, Z.of_nat (S idx_left), w) /\
    nth_error all_t idx_left = Some t_left /\
    nth_error all_t (S idx_left) = Some t_right /\
    (forall j tj,
       nth_error all_t j = Some tj -> tj < current_t -> (j <= idx_left)%nat) /\
    (idx_left <> 0%nat -> t_left < current_t) /\
    (let affine x := 2 * ((x - t_left) / (t_right - t_left)) - 1 in
     affine t_left = -1 /\ affine t_right = 1 /\ w = affine current_t).
Proof.
  intros Hsorted Hlen Hle.
  destruct (time_bracket_in_range all_t current_t Hlen Hle)
    as (il & tl & tr & E & Hl & Hr & Hcase).
  exists il, tl, tr, (2 * ((current_t - tl) / (tr - tl)) - 1.0).
  assert (Hlr : tl < tr)
    by (apply (sorted_nth_lt all_t Hsorted il (S il)); auto).
  split; [exact E|]. split; [exact Hl|]. split; [exact Hr|].
  split; [|split].
  - intros j tj Hj Hlt.
    destruct (Nat.le_gt_cases j il) as [|Hgt]; [assumption|exfalso].
    destruct Hcase as [[-> Hfirst]|[_ Hright]].
    + assert (tl < tj)
        by (apply (sorted_nth_lt all_t Hsorted 0%nat j); auto).
      lra.
    + destruct (Nat.eq_dec j (S il)) as [->|Hne].
      * rewrite Hr in Hj. injection Hj as <-. lra.
      * assert (tr < tj)
          by (apply (sorted_nth_lt all_t Hsorted (S il) j); auto; lia).
        lra.
  - intros Hne. destruct Hcase as [[-> _]|[Hbefore _]]; [contradiction|].
    apply (Hbefore il); auto.
  - cbv zeta. split; [|split].
    + unfold Rminus at 2. rewrite Rplus_opp_r. unfold Rdiv.
      rewrite Rmult_0_l. lra.
    + unfold Rdiv. rewrite Rinv_r by lra. lra.
    + lra.
Qed.

Lemma time_bracket_frames_witness :
  exists idx_left t_left t_right w,
    time_bracket [0; 0.033; 0.066] (INR 1 * dt)
    = Ok (Z.of_nat idx_left, Z.of_nat (S idx_left), w) /\
    nth_error [0; 0.033; 0.066] idx_left = Some t_left /\
    nth_error [0; 0.033; 0.066] (S idx_left) = Some t_right /\
    (forall j tj,
       nth_error [0; 0.033; 0.066] j = Some tj -> tj < INR 1 * dt ->
       (j <= idx_left)%nat) /\
    (idx_left <> 0%nat -> t_left < INR 1 * dt) /\
    (let affine x := 2 * ((x - t_left) / (t_right - t_left)) - 1 in
     affine t_left = -1 /\ affine t_right = 1 /\ w = affine (INR 1 * dt)).
Proof.
  apply (time_bracket_frames [0; 0.033; 0.066] (INR 1 * dt)).
  - repeat constructor; lra.
  - simpl; lia.
  - unfold dt; simpl; lra.
Defined.

(** ** The random turbulence *)

Lemma sign_values (x : R) :
  (0 < x -> sign x = 1) /\ (x < 0 -> sign x = -1) /\ (x = 0 -> sign x = 0).
Proof.
  unfold sign. destruct (Rlt_dec 0 x), (Rlt_dec x 0); repeat split; intros;
    try reflexivity; lra.
Qed.

Lemma pairs_length (l : list R) (n : nat) :
  List.length l = (n * 2)%nat -> List.length (pairs l) = n.
Proof.
  revert l; induction n as [|n IH]; intros l Hl.
  - destruct l; [reflexivity|discriminate].
  - destruct l as [|x [|y l]]; try discriminate. simpl in *.
    f_equal. apply IH. lia.
Qed.

Lemma pairs_in (l : list R) (P : R -> Prop) :
  Forall P l -> Forall (fun s => P (fst s) /\ P (snd s)) (pairs l).
Proof.
  revert l. fix IH 1. intros [|x [|y l]] H; simpl; try constructor.
  - inversion H as [|? ? Hx H']; inversion H' as [|? ? Hy H'']; subst.
    simpl. auto.
  - apply IH. inversion H as [|? ? _ H']; inversion H'; assumption.
Qed.

(** X17.  What [setup_random_turbulence] draws: five seeds, each coordinate the
    image [u * (bounds[1] - bounds[0]) + bounds[0]] of a draw [u], inside the
    bounds when the draws are in [[0, 1)], and five directions, each the sign
    of a draw minus one half: +1 above one half, -1 below, 0 at one half. *)
Lemma setup_random_turbulence_draws (self : Self) :
  let rs := np_random self in
  let self' := setup_random_turbulence self in
  turbulence_seeds self'
  = map (fun u => (fst u * 10 + -5, snd u * 10 + -5))
      (pairs (map (draws rs) (seq (cursor rs) 10))) /\
  direction self'
  = map (fun k => sign (draws rs k - 0.5)) (seq (cursor rs + 10) 5) /\
  List.length (turbulence_seeds self') = 5%nat /\
  List.length (direction self') = 5%nat /\
  (unit_draws rs ->
   Forall (fun s => -5 <= fst s < 5 /\ -5 <= snd s < 5)
     (turbulence_seeds self') /\
   Forall (fun d => d = 1 \/ d = -1 \/ d = 0) (direction self')).
Proof.
  intros rs self'.
  assert (Hseeds : turbulence_seeds self'
     = map (fun u => (fst u * 10 + -5, snd u * 10 + -5))
         (pairs (map (draws rs) (seq (cursor rs) 10)))).
  { unfold self', setup_random_turbulence; simpl.
    repeat f_equal; unfold bounds1, bounds0; simpl; lra. }
  assert (Hdir : direction self'
     = map (fun k => sign (draws rs k - 0.5)) (seq (cursor rs + 10) 5)).
  { unfold self', setup_random_turbulence; simpl. reflexivity. }
  split; [exact Hseeds|]. split; [exact Hdir|].
  split; [rewrite Hseeds; reflexivity|]. split; [rewrite Hdir; reflexivity|].
  intros Hunit. split.
  - rewrite Hseeds. apply Forall_map.
    eapply Forall_impl;
      [|apply (pairs_in _ (fun u => 0 <= u < 1)), Forall_map, Forall_forall;
        intros k _; apply Hunit].
    intros [x y] [Hx Hy]; simpl in *. lra.
  - rewrite Hdir. apply Forall_map, Forall_forall. intros k _.
    destruct (sign_values (draws rs k - 0.5)) as (Hpos & Hneg & Hzero).
    destruct (Rtotal_order (draws rs k - 0.5) 0) as [H|[H|H]]; auto.
Qed.

(** The field returned for the seeds and directions just drawn: at every
    query point [q], the sum over the seeds of
    [direction * range / |q - seed|^2] times the quarter turn
    [(x, y) |-> (y, - x)] of [q - seed], a rotation about the seed that is
    clockwise for the direction +1 and decays as the inverse of the
    distance. *)
Lemma random_disturbance_vortices (self : Self) (query_points : list vec2) :
  let quarter_turn (r : vec2) : vec2 := (snd r, - fst r) in
  random_disturbance self query_points
  = map (fun q =>
           vsum (map (fun sd =>
                        smul (snd sd * (bounds1 - bounds0)
                              / norm (vsub q (fst sd)) ^ 2)
                          (quarter_turn (vsub q (fst sd))))
                   (combine (turbulence_seeds self) (direction self))))
      query_points.
Proof.
  intros quarter_turn. unfold random_disturbance.
  apply map_ext. intros q.
  generalize (combine (turbulence_seeds self) (direction self)) as l.
  unfold vsum. induction l as [|[seed d] l IH]; cbn [map fold_right].
  - unfold smul, vzero; simpl. f_equal; lra.
  - rewrite <- IH. unfold seed_velocity, quarter_turn; cbv zeta.
    cbn [fst snd]. rewrite (norm_vsub_sym q seed).
    unfold smul, vadd, vsub; simpl. f_equal; unfold Rdiv; ring.
Qed.

(** C4, at the input where the code departs from it.  When the draw for the
    direction of a seed is exactly one half, [np.sign] gives 0: the
    directions drawn by the query are [0, -1, -1, -1, -1], the first of them
    neither +1 nor -1. *)
Theorem direction_zero_at_half
  (grid_sample : list Frame -> list (R * R * R) -> list vec2)
  (query_points : list vec2) :
  unit_draws (np_random half_self) /\
  direction (snd (get_disturbance grid_sample half_self query_points))
  = [0; -1; -1; -1; -1] /\
  ~ Forall (fun d => d = 1 \/ d = -1)
      (direction (snd (get_disturbance grid_sample half_self query_points))).
Proof.
  assert (Hdir :
    direction (snd (get_disturbance grid_sample half_self query_points))
    = [0; -1; -1; -1; -1]).
  { unfold get_disturbance; simpl.
    destruct (sign_values (0.5 - 0.5)) as (_ & _ & Hz).
    destruct (sign_values (0.25 - 0.5)) as (_ & Hn & _).
    rewrite Hz, Hn by lra. reflexivity. }
  split.
  - intros k; simpl. destruct (Nat.eqb k 10); lra.
  - split; [exact Hdir|]. rewrite Hdir. intros H.
    inversion H as [|? ? [Hd|Hd] _]; lra.
Qed.

(** * Further properties of the methods *)

(** ** [reset] and [__init__] *)

Lemma in_bounds_range (u : vec2) :
  0 <= fst u < 1 -> 0 <= snd u < 1 ->
  -5 <= fst (in_bounds u) < 5 /\ -5 <= snd (in_bounds u) < 5.
Proof.
  intros Hx Hy. unfold in_bounds, bounds1, bounds0; simpl. lra.
Qed.

Lemma fresh_positions_in_bounds (rs : RandomState) :
  unit_draws rs ->
  Forall (fun x => -5 <= fst x < 5 /\ -5 <= snd x < 5)
    (map in_bounds (pairs (fst (rand (n_agents * 2) rs)))).
Proof.
  intros Hunit. apply Forall_map.
  eapply Forall_impl;
    [|apply (pairs_in _ (fun u => 0 <= u < 1)); unfold rand; simpl fst;
      repeat (apply Forall_cons; [apply Hunit|]); apply Forall_nil].
  intros u [Hx Hy]. now apply in_bounds_range.
Qed.

Lemma reshape_in_bounds (a : list vec2) (P : R -> Prop) :
  Forall (fun x => P (fst x) /\ P (snd x)) a -> Forall P (reshape a).
Proof.
  induction 1 as [|x a [Hx Hy] _ IH]; simpl; auto.
Qed.

Lemma reshape_length (a : list vec2) :
  List.length (reshape a) = (2 * List.length a)%nat.
Proof. induction a as [|x a IH]; simpl; [reflexivity|]. rewrite IH. lia. Qed.

(** What [reset] leaves, whichever turbulence is configured and whether the
    loading of a stored simulation raised or not. *)
Lemma reset_frame (self : Self) :
  let P := map in_bounds (pairs (fst (rand (n_agents * 2) (np_random self)))) in
  p (snd (reset self)) = P /\
  vel (snd (reset self)) = zeros n_agents /\
  iter (snd (reset self)) = 0%nat /\
  done (snd (reset self)) = false /\
  leader_goal (snd (reset self)) = leader_goal self /\
  (fst (reset self) = Ok (reshape P) \/ exists e, fst (reset self) = Raise e).
Proof.
  unfold reset. simpl.
  destruct (String.eqb (turbulence_model (config self)) "random");
    [simpl; auto 10|].
  destruct (String.eqb (turbulence_model (config self)) "NS");
    [|simpl; auto 10].
  unfold _setup_NS_turbulence. simpl.
  match goal with |- context [nth_error ?l ?n] => destruct (nth_error l n) end;
    [|simpl; eauto 10].
  simpl.
  match goal with |- context [dict_get ?k ?d] => destruct (dict_get k d) end;
    [simpl; auto 10|].
  simpl.
  match goal with
  | |- context [load_sim_files ?f] => destruct (load_sim_files f)
  end; simpl; eauto 10.
Qed.

(** X1.  [reset] with draws in [[0, 1)]: three positions with every
    coordinate in [[-5, 5)], zero velocities, the counter at 0, the flag
    [done] false; the observation returned, when the call returns, is the six
    coordinates of those positions in order. *)
Theorem reset_observation_in_bounds (self : Self) :
  unit_draws (np_random self) ->
  let self' := snd (reset self) in
  List.length (p self') = n_agents /\
  Forall (fun x => -5 <= fst x < 5 /\ -5 <= snd x < 5) (p self') /\
  vel self' = zeros n_agents /\
  iter self' = 0%nat /\ done self' = false /\
  forall observation,
    fst (reset self) = Ok observation ->
    observation = reshape (p self') /\
    List.length observation = (n_agents * state_dim)%nat /\
    Forall (fun x => -5 <= x < 5) observation.
Proof.
  intros Hunit self'.
  destruct (reset_frame self) as (Hp & Hv & Hi & Hd & _ & Hobs).
  fold self' in Hp, Hv, Hi, Hd.
  pose proof (fresh_positions_in_bounds _ Hunit) as Hin.
  rewrite <- Hp in Hin, Hobs.
  assert (Hlen : List.length (p self') = n_agents) by (rewrite Hp; reflexivity).
  repeat split; try assumption.
  - destruct Hobs as [E|[e E]]; rewrite E in H; congruence.
  - assert (observation = reshape (p self'))
      by (destruct Hobs as [E|[e E]]; rewrite E in H; congruence).
    subst. rewrite reshape_length, Hlen. reflexivity.
  - assert (observation = reshape (p self'))
      by (destruct Hobs as [E|[e E]]; rewrite E in H; congruence).
    subst. now apply reshape_in_bounds.
Qed.

Lemma example_random_unit : unit_draws example_random.
Proof. intros k; simpl. lra. Qed.

Lemma reset_observation_in_bounds_witness :
  Forall (fun x => -5 <= fst x < 5 /\ -5 <= snd x < 5)
    (p (snd (reset example_self))).
Proof.
  apply (proj1 (proj2 (reset_observation_in_bounds example_self
                         example_random_unit))).
Defined.

(** ** The shape of one call of [step] *)

Section StepShape.

Variable grid_sample : list Frame -> list (R * R * R) -> list vec2.

Lemma get_disturbance_keeps_motion (self : Self) (query_points : list vec2) :
  let self2 := snd (get_disturbance grid_sample self query_points) in
  p self2 = p self /\ vel self2 = vel self /\
  leader_goal self2 = leader_goal self.
Proof.
  unfold get_disturbance.
  destruct (String.eqb (turbulence_model (config self)) "random");
    [simpl; auto|].
  destruct (String.eqb (turbulence_model (config self)) "NS"); simpl; auto.
Qed.

(** A query that raises leaves the instance as it was. *)
Lemma get_disturbance_raise_state (self : Self) (query_points : list vec2)
  (e : exn) :
  fst (get_disturbance grid_sample self query_points) = Raise e ->
  snd (get_disturbance grid_sample self query_points) = self.
Proof.
  unfold get_disturbance.
  destruct (String.eqb (turbulence_model (config self)) "random");
    [simpl; discriminate|].
  destruct (String.eqb (turbulence_model (config self)) "NS"); reflexivity.
Qed.

(** The two ways a call of [step] ends. *)
Lemma step_cases (action : list R) (self : Self) :
  let self1 := snd (propagate_goal self) in
  (exists v_we self2,
     get_disturbance grid_sample self1 (p self) = (Ok v_we, self2) /\
     let self3 :=
       _simulate_second_order (step_acc self) (msub v_we (vel self)) self2 in
     step grid_sample action self
     = (Ok (reshape (p self3), compute_reward self3,
            (_max_episode_steps <=? iter self + 1)%nat, tt),
        set_iter (iter self + 1) self3)) \/
  (exists e,
     get_disturbance grid_sample self1 (p self) = (Raise e, self1) /\
     step grid_sample action self = (Raise e, self1)).
Proof.
  intros self1.
  destruct (propagate_goal_keeps self) as (_ & Hi & _ & _ & Hp & Hv).
  fold self1 in Hi, Hp, Hv.
  pose proof (get_disturbance_keeps grid_sample self1 (p self))
    as (_ & Hi2 & _).
  pose proof (get_disturbance_keeps_motion self1 (p self)) as (_ & Hv2 & _).
  pose proof (get_disturbance_raise_state self1 (p self)) as Hraise.
  unfold step, step_acc. subst self1.
  destruct (propagate_goal self) as [lv self1]; simpl in *. rewrite Hp.
  destruct (get_disturbance grid_sample self1 (p self)) as [[v_we|e] self2];
    simpl in *.
  - left. exists v_we, self2. split; [reflexivity|].
    rewrite <- Hv, <- Hv2, <- Hi, <- Hi2. reflexivity.
  - right. exists e. rewrite (Hraise e eq_refl). split; reflexivity.
Qed.

Lemma simulate_second_order_positions (action v_wr : list vec2) (self : Self) :
  List.length (p self) = n_agents ->
  List.length (vel self) = n_agents ->
  p (_simulate_second_order action v_wr self)
  = map (fun pv => vadd (fst pv) (smul dt (snd pv)))
      (combine (p self) (vel self)) /\
  List.length (vel (_simulate_second_order action v_wr self)) = n_agents.
Proof.
  intros Hp Hv.
  destruct (simulate_agents_rows action (wind_acceleration v_wr)
              (seq 0 n_agents) self (seq_NoDup _ _)) as (Lp & Lv & Hrows).
  { intros i Hi. apply in_seq in Hi. rewrite Hp, Hv. lia. }
  fold (_simulate_second_order action v_wr self) in Lp, Lv, Hrows.
  split; [|congruence].
  apply rows_ext.
  - rewrite Lp, length_map, length_combine, Hp, Hv. reflexivity.
  - intros i Hi. rewrite Lp, Hp in Hi.
    destruct (Hrows i) as [[-> _] _]; [apply in_seq; lia|].
    unfold row.
    set (f := fun pv : vec2 * vec2 => vadd (fst pv) (smul dt (snd pv))).
    rewrite (nth_indep (map f (combine (p self) (vel self))) vzero
               (f (vzero, vzero)))
      by (rewrite length_map, length_combine, Hp, Hv; exact Hi).
    rewrite (map_nth f).
    rewrite combine_nth by congruence. reflexivity.
Qed.

End StepShape.

(** X2.  The arrays [p] and [vel] keep the shape [(n_agents, 2)]:
    [__init__] builds them so, [reset] rebuilds them so, and every call of
    [step], returning or raising, under any turbulence model, leaves them
    so. *)
Theorem positions_keep_shape
  (grid_sample : list Frame -> list (R * R * R) -> list vec2) :
  (forall config rs self,
     __init__ config rs = Ok self ->
     List.length (p self) = n_agents /\ List.length (vel self) = n_agents) /\
  (forall self,
     List.length (p (snd (reset self))) = n_agents /\
     List.length (vel (snd (reset self))) = n_agents) /\
  (forall action self,
     List.length (p self) = n_agents ->
     List.length (vel self) = n_agents ->
     List.length (p (snd (step grid_sample action self))) = n_agents /\
     List.length (vel (snd (step grid_sample action self))) = n_agents).
Proof.
  split; [|split].
  - intros config rs self. unfold __init__; simpl.
    destruct (String.eqb (turbulence_model config) "random");
      [intros H; injection H as <-; split; reflexivity|].
    destruct (String.eqb (turbulence_model config) "NS").
    + destruct (0 <? List.length (map fst (turbulence_base_folder config)))%nat;
        [|discriminate].
      intros H; injection H as <-; split; reflexivity.
    + intros H; injection H as <-; split; reflexivity.
  - intros self. destruct (reset_frame self) as (-> & -> & _).
    split; reflexivity.
  - intros action self Hp Hv.
    destruct (propagate_goal_keeps self) as (_ & _ & _ & _ & Hp1 & Hv1).
    destruct (step_cases grid_sample action self)
      as [(v_we & self2 & Hq & ->)|(e & _ & ->)]; simpl snd.
    + pose proof (get_disturbance_keeps_motion grid_sample
                    (snd (propagate_goal self)) (p self)) as (Hp2 & Hv2 & _).
      rewrite Hq in Hp2, Hv2. simpl in Hp2, Hv2.
      destruct (simulate_second_order_positions (step_acc self)
                  (msub v_we (vel self)) self2) as [E L]; try congruence.
      unfold set_iter; cbn [snd p vel].
      rewrite E, length_map, length_combine, Hp2, Hv2, Hp1, Hv1, Hp, Hv.
      split; [reflexivity|exact L].
    + rewrite Hp1, Hv1. now split.
Qed.

Lemma positions_keep_shape_witness :
  List.length (p (snd (step (fun _ _ => []) [] example_self))) = n_agents.
Proof.
  apply (proj2 (proj2 (positions_keep_shape (fun _ _ => []))) []
           example_self eq_refl eq_refl).
Defined.

(** X3.  A call of [step] that returns moves every position by [dt] times
    the velocity held before the call and returns those positions flattened:
    neither the accelerations nor the wind of the call reach the observation
    it returns.  The reward returned is [compute_reward] on the positions
    returned. *)
Theorem step_observation
  (grid_sample : list Frame -> list (R * R * R) -> list vec2)
  (action : list R) (self : Self)
  (observation : list R) (reward : R) (done_flag : bool) (info : unit) :
  List.length (p self) = n_agents ->
  List.length (vel self) = n_agents ->
  fst (step grid_sample action self)
  = Ok (observation, reward, done_flag, info) ->
  let moved :=
    map (fun pv => vadd (fst pv) (smul dt (snd pv)))
      (combine (p self) (vel self)) in
  p (snd (step grid_sample action self)) = moved /\
  observation = reshape moved /\
  List.length observation = (n_agents * state_dim)%nat /\
  reward = compute_reward (snd (step grid_sample action self)).
Proof.
  intros Hp Hv Hret moved.
  destruct (propagate_goal_keeps self) as (_ & _ & _ & _ & Hp1 & Hv1).
  destruct (step_cases grid_sample action self)
    as [(v_we & self2 & Hq & E)|(e & _ & E)];
    cbv zeta in E; rewrite E in Hret |- *; cbn [fst] in Hret; [|discriminate].
  pose proof (get_disturbance_keeps_motion grid_sample
                (snd (propagate_goal self)) (p self)) as (Hp2 & Hv2 & _).
  rewrite Hq in Hp2, Hv2. simpl in Hp2, Hv2.
  destruct (simulate_second_order_positions (step_acc self)
              (msub v_we (vel self)) self2) as [Epos _]; try congruence.
  rewrite Hp2, Hv2, Hp1, Hv1 in Epos. fold moved in Epos.
  set (self3 := _simulate_second_order (step_acc self) (msub v_we (vel self))
                  self2) in *.
  assert (Hobs : observation = reshape (p self3)) by congruence.
  assert (Hrew : reward = compute_reward self3) by congruence.
  subst observation reward.
  split; [exact Epos|]. rewrite Epos. split; [reflexivity|]. split.
  - rewrite reshape_length. unfold moved.
    rewrite length_map, length_combine, Hp, Hv. reflexivity.
  - reflexivity.
Qed.

Lemma step_done_returns_example :
  exists o r,
    fst (step (fun _ _ => []) [] example_self) = Ok (o, r, false, tt).
Proof.
  destruct (step_returned (fun _ _ => []) [] example_self eq_refl)
    as (o & r & E & _).
  exists o, r. exact E.
Defined.

Lemma step_observation_witness :
  p (snd (step (fun _ _ => []) [] example_self))
  = map (fun pv => vadd (fst pv) (smul dt (snd pv)))
      (combine (p example_self) (vel example_self)).
Proof.
  destruct (step_done_returns_example) as (o & r & E).
  exact (proj1 (step_observation (fun _ _ => []) [] example_self o r false tt
                  eq_refl eq_refl E)).
Defined.

(** ** Calls of [step] that raise *)

Lemma propagate_goal_moves (self : Self) :
  ((iter self <= 100)%nat -> snd (propagate_goal self) = self) /\
  ((100 < iter self)%nat ->
   leader_goal (snd (propagate_goal self)) = smul 0.967 (leader_goal self)).
Proof.
  unfold propagate_goal. split; intros H.
  - destruct (Nat.ltb_spec 100 (iter self)); [lia|reflexivity].
  - destruct (Nat.ltb_spec 100 (iter self)); [|lia]. simpl.
    destruct (leader_goal self) as [x y].
    unfold vadd, smul, vsub, final_goal, dt, K_p; simpl. f_equal; lra.
Qed.

(** X4.  A call of [step] that raises is not undone: the positions, the
    velocities and the counter are as before the call, but the goal point of
    the leader, moved before the disturbance is queried, stays moved.  Up to
    step 100 the instance is unchanged; later every raising call scales the
    goal point by [1 - dt * 0.2 * K_p = 0.967]. *)
Theorem step_raise_keeps_goal_move
  (grid_sample : list Frame -> list (R * R * R) -> list vec2)
  (action : list R) (self : Self) (e : exn) :
  fst (step grid_sample action self) = Raise e ->
  let self' := snd (step grid_sample action self) in
  p self' = p self /\ vel self' = vel self /\ iter self' = iter self /\
  ((iter self <= 100)%nat -> self' = self) /\
  ((100 < iter self)%nat ->
   leader_goal self' = smul 0.967 (leader_goal self)).
Proof.
  intros Hraise self'.
  destruct (propagate_goal_keeps self) as (_ & Hi & _ & _ & Hp & Hv).
  destruct (propagate_goal_moves self) as [Hearly Hlate].
  destruct (step_cases grid_sample action self)
    as [(v_we & self2 & _ & E)|(e' & _ & E)]; cbv zeta in E.
  - rewrite E in Hraise. discriminate.
  - unfold self'. rewrite E. simpl snd. auto.
Qed.

Lemma step_raise_keeps_goal_move_witness :
  snd (step (fun _ _ => []) [] single_file_self) = single_file_self.
Proof.
  refine (proj1 (proj2 (proj2 (proj2
            (step_raise_keeps_goal_move (fun _ _ => []) [] single_file_self
               IndexError _)))) _).
  - unfold step, get_disturbance, NS_disturbance. simpl.
    rewrite time_bracket_single; [reflexivity|simpl; lra].
  - simpl; lia.
Defined.

(** X5.  A turbulence model other than ['random'] and ['NS'] is accepted by
    [__init__] and by [reset], which both return; every call of [step] then
    raises [UnboundLocalError], since [get_disturbance] assigns its result in
    neither branch. *)
Theorem unknown_model_raises_at_step
  (grid_sample : list Frame -> list (R * R * R) -> list vec2)
  (cfg : Config) :
  String.eqb (turbulence_model cfg) "random" = false ->
  String.eqb (turbulence_model cfg) "NS" = false ->
  (forall rs, exists self, __init__ cfg rs = Ok self /\ config self = cfg) /\
  (forall self,
     config self = cfg ->
     is_ok (fst (reset self)) = true /\
     config (snd (reset self)) = cfg /\
     forall action,
       fst (step grid_sample action self) = Raise UnboundLocalError).
Proof.
  intros Hr Hn. split.
  - intros rs. unfold __init__; simpl. rewrite Hr, Hn. eexists; split; reflexivity.
  - intros self <-. repeat split.
    + unfold reset; simpl. rewrite Hr, Hn. reflexivity.
    + apply reset_iter_config.
    + intros action.
      destruct (propagate_goal_keeps self) as (Hc & _).
      destruct (step_cases grid_sample action self)
        as [(v_we & self2 & Hq & _)|(e' & Hq & ->)];
        unfold get_disturbance in Hq; rewrite Hc, Hr, Hn in Hq.
      * discriminate.
      * injection Hq as <-. reflexivity.
Qed.

Lemma unknown_model_raises_at_step_witness :
  fst (step (fun _ _ => []) [] unknown_model_self) = Raise UnboundLocalError.
Proof.
  apply (proj2 (proj2 (proj2 (unknown_model_raises_at_step (fun _ _ => [])
                                (mkConfig "still" []) eq_refl eq_refl)
                         unknown_model_self eq_refl)) []).
Defined.

(** X6.  With the stored turbulence, [__init__] raises the assertion error
    when the base folder holds no simulation directory; when it returns, no
    simulation is selected yet, and a call of [step] made before any [reset]
    raises [KeyError]. *)
Theorem NS_step_before_reset
  (grid_sample : list Frame -> list (R * R * R) -> list vec2)
  (cfg : Config) (rs : RandomState) :
  turbulence_model cfg = "NS"%string ->
  (turbulence_base_folder cfg = [] ->
   __init__ cfg rs = Raise (AssertionError "There are no valid simulation")) /\
  (forall self,
     __init__ cfg rs = Ok self ->
     turbulence_base_folder cfg <> [] /\
     all_sims self = map fst (turbulence_base_folder cfg) /\
     selected_sim self = None /\ wind_sim_dict self = [] /\
     forall action, fst (step grid_sample action self) = Raise KeyError).
Proof.
  intros Hm. unfold __init__; simpl. rewrite Hm; simpl. split.
  - intros ->. reflexivity.
  - intros self.
    destruct (turbulence_base_folder cfg) as [|d ds] eqn:Hfolder; simpl;
      [discriminate|].
    intros H; injection H as <-. simpl.
    repeat split; try discriminate.
    intros action. unfold step, get_disturbance, NS_disturbance; simpl.
    rewrite Hm; simpl. reflexivity.
Qed.

Lemma NS_step_before_reset_witness :
  __init__ (mkConfig "NS" []) example_random
  = Raise (AssertionError "There are no valid simulation").
Proof.
  apply (proj1 (NS_step_before_reset (fun _ _ => []) (mkConfig "NS" [])
                  example_random eq_refl)).
  reflexivity.
Defined.

(** ** The goal point of the leader over an episode *)

Section GoalPoint.

Variable grid_sample : list Frame -> list (R * R * R) -> list vec2.

Lemma random_after_steps (actions : nat -> list R) (self : Self) (k : nat) :
  turbulence_model (config self) = "random"%string ->
  config (after_steps grid_sample actions k self) = config self /\
  iter (after_steps grid_sample actions k self) = (iter self + k)%nat.
Proof.
  intros Hrandom. induction k as [|k [IHc IHi]]; simpl; [split; [reflexivity|lia]|].
  destruct (step_returned grid_sample (actions k)
              (after_steps grid_sample actions k self))
    as (o & r & _ & Hi' & Hc').
  { apply random_disturbance_returns. now rewrite IHc. }
  rewrite Hc', Hi', IHc, IHi. split; [reflexivity|lia].
Qed.

Lemma step_leader_goal (action : list R) (self : Self) :
  leader_goal (snd (step grid_sample action self))
  = leader_goal (snd (propagate_goal self)).
Proof.
  destruct (step_cases grid_sample action self)
    as [(v_we & self2 & Hq & E)|(e' & _ & E)]; cbv zeta in E; rewrite E.
  - pose proof (get_disturbance_keeps_motion grid_sample
                  (snd (propagate_goal self)) (p self)) as (_ & _ & Hg).
    rewrite Hq in Hg. simpl in Hg. rewrite <- Hg. reflexivity.
  - reflexivity.
Qed.

End GoalPoint.

Lemma smul_smul (a b : R) (x : vec2) : smul a (smul b x) = smul (a * b) x.
Proof. unfold smul; simpl. f_equal; ring. Qed.

(** X7.  The goal point of the leader through [reset] and the calls of
    [step] that follow, with the random turbulence: [reset] does not restore
    it, the first 101 calls leave it where it is, and every later call scales
    it by [0.967] toward [final_goal], so that after [k] calls it is the goal
    point held before [reset] times [0.967 ^ (k - 101)]. *)
Theorem leader_goal_trajectory
  (grid_sample : list Frame -> list (R * R * R) -> list vec2)
  (self : Self) (actions : nat -> list R) (k : nat) :
  turbulence_model (config self) = "random"%string ->
  leader_goal (snd (reset self)) = leader_goal self /\
  leader_goal (after_steps grid_sample actions k (snd (reset self)))
  = smul (0.967 ^ (k - 101)) (leader_goal self).
Proof.
  intros Hrandom.
  destruct (reset_frame self) as (_ & _ & Hi0 & _ & Hg0 & _).
  destruct (reset_iter_config self) as [_ Hc0].
  split; [exact Hg0|].
  induction k as [|k IH].
  - simpl. rewrite Hg0. destruct (leader_goal self); unfold smul; simpl.
    f_equal; lra.
  - simpl after_steps. rewrite step_leader_goal.
    destruct (random_after_steps grid_sample actions (snd (reset self)) k)
      as [_ Hik]; [now rewrite Hc0|].
    rewrite Hi0 in Hik. simpl in Hik.
    destruct (propagate_goal_moves
                (after_steps grid_sample actions k (snd (reset self))))
      as [Hearly Hlate].
    destruct (Nat.le_gt_cases k 100) as [Hk|Hk].
    + rewrite Hearly by lia. rewrite IH.
      replace (S k - 101)%nat with (k - 101)%nat by lia. reflexivity.
    + rewrite Hlate by lia. rewrite IH, smul_smul.
      replace (S k - 101)%nat with (S (k - 101)) by lia. reflexivity.
Qed.

Lemma leader_goal_trajectory_witness :
  leader_goal
    (after_steps (fun _ _ => []) (fun _ => []) 103 (snd (reset example_self)))
  = smul (0.967 ^ 2) (leader_goal example_self).
Proof.
  apply (proj2 (leader_goal_trajectory (fun _ _ => []) example_self
                  (fun _ => []) 103 eq_refl)).
Defined.

(** ** The cache of loaded simulations *)

Lemma dict_get_set_other {A : Type} (k k' : string) (a : A)
  (d : list (string * A)) :
  k <> k' -> dict_get k (dict_set k' a d) = dict_get k d.
Proof.
  intros Hk. induction d as [|[k0 a0] d IH]; simpl.
  - destruct (String.eqb_spec k' k); [congruence|reflexivity].
  - destruct (String.eqb_spec k0 k') as [->|Hk0]; simpl.
    + destruct (String.eqb_spec k' k); [congruence|reflexivity].
    + destruct (String.eqb_spec k0 k); [reflexivity|exact IH].
Qed.

Lemma setup_NS_keeps_entries (self : Self) (name : string)
  (entry : option SimData) :
  dict_get name (wind_sim_dict self) = Some entry ->
  dict_get name (wind_sim_dict (snd (_setup_NS_turbulence self)))
  = Some entry.
Proof.
  intros Hentry. unfold _setup_NS_turbulence. simpl.
  destruct (nth_error (all_sims self) _) as [picked|]; [|exact Hentry].
  simpl.
  destruct (dict_get picked (wind_sim_dict self)) as [old|] eqn:Hpicked;
    [exact Hentry|].
  assert (Hne : name <> picked) by (intros ->; congruence).
  simpl.
  match goal with
  | |- context [load_sim_files ?f] => destruct (load_sim_files f)
  end; simpl; rewrite !dict_get_set_other by assumption; exact Hentry.
Qed.

(** X8.  An entry of [wind_sim_dict] is written once: neither [reset],
    whichever simulation it selects, nor a call of [step] changes or removes
    the entry a simulation name already has, so a simulation is read from disk
    at most once in the life of the instance. *)
Theorem loaded_entries_persist
  (grid_sample : list Frame -> list (R * R * R) -> list vec2)
  (self : Self) (name : string) (entry : option SimData) :
  dict_get name (wind_sim_dict self) = Some entry ->
  dict_get name (wind_sim_dict (snd (reset self))) = Some entry /\
  forall action,
    dict_get name (wind_sim_dict (snd (step grid_sample action self)))
    = Some entry.
Proof.
  intros Hentry. split.
  - unfold reset. simpl.
    destruct (String.eqb (turbulence_model (config self)) "random");
      [exact Hentry|].
    destruct (String.eqb (turbulence_model (config self)) "NS");
      [|exact Hentry].
    match goal with
    | |- context [_setup_NS_turbulence ?s] =>
        pose proof (setup_NS_keeps_entries s name entry Hentry) as H;
        destruct (_setup_NS_turbulence s) as [[u|e] s']
    end; exact H.
  - intros action.
    destruct (propagate_goal_keeps self) as (_ & _ & _ & Hd & _).
    destruct (step_cases grid_sample action self)
      as [(v_we & self2 & Hq & E)|(e' & _ & E)]; cbv zeta in E; rewrite E.
    + pose proof (get_disturbance_keeps grid_sample
                    (snd (propagate_goal self)) (p self)) as (_ & _ & _ & Hd2).
      rewrite Hq in Hd2. simpl in Hd2.
      change (dict_get name (wind_sim_dict self2) = Some entry).
      now rewrite Hd2, Hd.
    + simpl. now rewrite Hd.
Qed.

Lemma loaded_entries_persist_witness :
  dict_get "sim_1x1_a"
    (wind_sim_dict (snd (step (fun _ _ => []) [] single_file_self)))
  = Some (Some (mkSimData [[[(0, 0)]]] [0])).
Proof.
  apply (proj2 (loaded_entries_persist (fun _ _ => []) single_file_self
                  "sim_1x1_a" (Some (mkSimData [[[(0, 0)]]] [0])) eq_refl)).
Defined.





(** ** The random turbulence, query by query *)

(** X10.  With the random turbulence, what a query returns is fixed by the
    query points and the next 15 draws, ten for the seeds and five for the
    directions: the seeds and directions stored in the instance before the
    call are not read, they are replaced.  The value at a query point is the
    sum over the five fresh seeds of [direction * 10 / |q - seed|^2] times
    the clockwise quarter turn of [q - seed]. *)
Theorem random_query_fresh_vortices
  (grid_sample : list Frame -> list (R * R * R) -> list vec2)
  (self : Self) (query_points : list vec2) :
  turbulence_model (config self) = "random"%string ->
  let rs := np_random self in
  let seeds :=
    map (fun u => (fst u * 10 + -5, snd u * 10 + -5))
      (pairs (map (draws rs) (seq (cursor rs) 10))) in
  let dirs := map (fun k => sign (draws rs k - 0.5)) (seq (cursor rs + 10) 5) in
  let quarter_turn (r : vec2) : vec2 := (snd r, - fst r) in
  let self' := snd (get_disturbance grid_sample self query_points) in
  fst (get_disturbance grid_sample self query_points)
  = Ok (map (fun q =>
               vsum (map (fun sd =>
                            smul (snd sd * 10 / norm (vsub q (fst sd)) ^ 2)
                              (quarter_turn (vsub q (fst sd))))
                       (combine seeds dirs)))
          query_points) /\
  turbulence_seeds self' = seeds /\ direction self' = dirs /\
  cursor (np_random self') = (cursor rs + 15)%nat /\
  draws (np_random self') = draws rs.
Proof.
  intros Hm rs seeds dirs quarter_turn self'.
  destruct (setup_random_turbulence_draws self) as (Hs & Hd & _).
  fold rs in Hs, Hd. fold seeds in Hs. fold dirs in Hd.
  assert (E : get_disturbance grid_sample self query_points
              = (Ok (random_disturbance (setup_random_turbulence self)
                       query_points),
                 setup_random_turbulence self)).
  { unfold get_disturbance. rewrite Hm. reflexivity. }
  unfold self'. rewrite E. simpl fst; simpl snd.
  split; [|split; [exact Hs|split; [exact Hd|split]]].
  - rewrite random_disturbance_vortices, Hs, Hd.
    replace (bounds1 - bounds0) with 10
      by (unfold bounds1, bounds0; simpl; lra).
    reflexivity.
  - unfold setup_random_turbulence, rs; simpl. unfold num_dist_seeds. lia.
  - reflexivity.
Qed.

Lemma random_query_fresh_vortices_witness :
  cursor (np_random (snd (get_disturbance (fun _ _ => []) example_self [])))
  = (cursor (np_random example_self) + 15)%nat.
Proof.
  apply (proj2 (proj2 (proj2 (random_query_fresh_vortices (fun _ _ => [])
                                example_self [] eq_refl)))).
Defined.

(** ** The stored field: what the sampler is handed *)






(** X12.  The time weight of a query, for time stamps in strictly increasing
    order, two or more, and a query not beyond the last: it lies in
    [[-1, 1]] when the query is not before the first time stamp, and below
    [-1] when it is, the frames used being then the first two. *)
Theorem time_weight_range (all_t : list R) (current_t t_first : R) :
  StronglySorted Rlt all_t ->
  (2 <= List.length all_t)%nat ->
  nth_error all_t 0 = Some t_first ->
  current_t <= last all_t 0 ->
  exists idx_left w,
    time_bracket all_t current_t
    = Ok (Z.of_nat idx_left, Z.of_nat (S idx_left), w) /\
    (t_first <= current_t -> -1 <= w <= 1) /\
    (current_t < t_first -> idx_left = 0%nat /\ w < -1).
Proof.
  intros Hsorted Hlen Hfirst Hle.
  destruct (time_bracket_in_range all_t current_t Hlen Hle)
    as (il & tl & tr & E & Hl & Hr & Hcase).
  assert (Hlr : tl < tr)
    by (apply (sorted_nth_lt all_t Hsorted il (S il)); auto).
  exists il, (2 * ((current_t - tl) / (tr - tl)) - 1.0).
  split; [exact E|].
  assert (Hx : (current_t - tl) / (tr - tl) * (tr - tl) = current_t - tl)
    by (field; lra).
  set (x := (current_t - tl) / (tr - tl)) in *.
  destruct Hcase as [[-> Hbefore]|[Hbefore Hright]].
  - assert (tl = t_first) by congruence. subst tl.
    split; intros H.
    + assert (x = 0) by nra. lra.
    + split; [reflexivity|]. assert (x < 0) by nra. lra.
  - assert (H0 : t_first < current_t)
      by (apply (Hbefore 0%nat); [lia|assumption]).
    assert (Hl' : tl < current_t) by (apply (Hbefore il); auto).
    split; intros H; [|lra].
    assert (0 < x) by nra. assert (x <= 1) by nra. lra.
Qed.

Lemma time_weight_range_witness :
  exists idx_left w,
    time_bracket [0; 0.033; 0.066] 0.05
    = Ok (Z.of_nat idx_left, Z.of_nat (S idx_left), w) /\
    (0 <= 0.05 -> -1 <= w <= 1) /\
    (0.05 < 0 -> idx_left = 0%nat /\ w < -1).
Proof.
  apply (time_weight_range [0; 0.033; 0.066] 0.05 0).
  - repeat constructor; lra.
  - simpl; lia.
  - reflexivity.
  - simpl; lra.
Defined.

(** ** The reward and the drag, once more *)

Lemma reward_over_edges (self : Self) :
  let err i j :=
    norm (vsub (row i (p self)) (row j (p self)))
    - norm (vsub (row i formation_ref) (row j formation_ref)) in
  compute_reward self
  = err 0%nat 1%nat + err 0%nat 2%nat + err 1%nat 0%nat + err 1%nat 2%nat
    + err 2%nat 1%nat + err 2%nat 0%nat.
Proof.
  intros err. unfold compute_reward.
  rewrite (nested_sum err (nx.neighbors G)). unfold n_agents; simpl. lra.
Qed.

Lemma row_map_translate (a : list vec2) (t : vec2) (i : nat) :
  (i < List.length a)%nat ->
  row i (map (fun x => vadd x t) a) = vadd (row i a) t.
Proof.
  intros Hi. unfold row.
  rewrite (nth_indep (map (fun x => vadd x t) a) vzero
             ((fun x => vadd x t) vzero))
    by (now rewrite length_map).
  apply (map_nth (fun x => vadd x t)).
Qed.

(** X13.  [compute_reward] does not change when every agent is moved by the
    same translation: it reads the positions through their differences
    only. *)
Theorem compute_reward_translation (self : Self) (t : vec2) :
  List.length (p self) = n_agents ->
  compute_reward (set_p (map (fun x => vadd x t) (p self)) self)
  = compute_reward self.
Proof.
  intros Hp. rewrite !reward_over_edges. unfold set_p; cbn [p].
  unfold n_agents in Hp.
  rewrite !row_map_translate by lia.
  rewrite !vsub_translate. reflexivity.
Qed.

Lemma compute_reward_translation_witness :
  compute_reward (set_p (map (fun x => vadd x (7, -2)) (p example_self))
                    example_self)
  = compute_reward example_self.
Proof.
  apply (compute_reward_translation example_self (7, -2)). reflexivity.
Defined.

Lemma norm_smul (c : R) (v : vec2) :
  0 <= c -> norm (smul c v) = c * norm v.
Proof.
  intros Hc. destruct v as [x y]. unfold norm, smul; simpl.
  replace (c * x * (c * x) + c * y * (c * y))
    with ((c * c) * (x * x + y * y)) by ring.
  rewrite sqrt_mult_alt by nra. now rewrite sqrt_square.
Qed.

(** X14.  The drag acceleration grows with the square of the relative wind
    speed, [|wind_acc| = 0.5 * rho * c_d * area / m * |v|^2], and reverses
    with the relative wind. *)
Theorem wind_acceleration_magnitude (v : vec2) :
  norm (wind_acc_row v) = 0.5 * rho * c_d * area / m * norm v ^ 2 /\
  wind_acc_row (vneg v) = vneg (wind_acc_row v).
Proof.
  split.
  - rewrite wind_acc_row_scaled, norm_smul.
    + ring.
    + apply Rmult_le_pos;
        [apply Rlt_le, drag_coefficient_pos | apply norm_nonneg].
  - rewrite !wind_acc_row_scaled.
    assert (Hn : norm (vneg v) = norm v).
    { destruct v as [x y]; unfold norm, vneg; simpl. f_equal. ring. }
    rewrite Hn. destruct v as [x y]; unfold smul, vneg; simpl.
    f_equal; ring.
Qed.

(** ** The first-order dynamics *)

Section FirstOrderLoop.

Variables action velocity_disturbance : list vec2.

Lemma simulate_first_order_rows (l : list nat) :
  forall self,
    NoDup l ->
    (forall i, In i l ->
       (i < List.length (p self))%nat /\ (i < List.length (vel self))%nat) ->
    let self' :=
      fold_left (simulate_first_order_agent action velocity_disturbance)
        l self in
    List.length (p self') = List.length (p self) /\
    List.length (vel self') = List.length (vel self) /\
    forall i,
      (In i l ->
         row i (vel self')
         = vadd (row i action) (row i velocity_disturbance) /\
         row i (p self')
         = vadd (row i (p self))
             (smul dt (vadd (row i action) (row i velocity_disturbance)))) /\
      (~ In i l ->
         row i (p self') = row i (p self) /\
         row i (vel self') = row i (vel self)).
Proof.
  induction l as [|k l IH]; intros self Hnd Hin; simpl.
  - repeat split; intros; tauto.
  - inversion Hnd as [|? ? Hk Hnd']; subst.
    destruct (Hin k (or_introl eq_refl)) as [Hkp Hkv].
    set (s1 := simulate_first_order_agent action velocity_disturbance self k).
    assert (Hp1 : List.length (p s1) = List.length (p self))
      by (unfold s1, simulate_first_order_agent; simpl; apply set_row_length).
    assert (Hv1 : List.length (vel s1) = List.length (vel self))
      by (unfold s1, simulate_first_order_agent; simpl; apply set_row_length).
    destruct (IH s1 Hnd') as (Lp & Lv & Hrows).
    { intros i Hi. rewrite Hp1, Hv1. apply Hin. now right. }
    split; [congruence|]. split; [congruence|].
    intros i. destruct (Hrows i) as [Hin_l Hout_l].
    split.
    + intros [->|Hi].
      * destruct (Hout_l Hk) as [-> ->].
        unfold s1, simulate_first_order_agent; simpl.
        rewrite !row_set_row_same by assumption. auto.
      * destruct (Hin_l Hi) as [-> ->].
        assert (k <> i) by (intros ->; contradiction).
        unfold s1, simulate_first_order_agent; simpl.
        rewrite !row_set_row_other by assumption. auto.
    + intros Hni.
      assert (k <> i) by (intros ->; apply Hni; now left).
      destruct Hout_l as [-> ->]; [tauto|].
      unfold s1, simulate_first_order_agent; simpl.
      rewrite !row_set_row_other by assumption. auto.
Qed.

End FirstOrderLoop.

(** X15.  [_simulate], the first-order dynamics: when the disturbance query
    returns the wind [w], every agent gets the velocity [action_i + w_i],
    whatever its velocity was, and its position moves by [dt] times that new
    velocity; when the query raises, [_simulate] raises with it and the
    instance is as before. *)
Theorem simulate_first_order
  (grid_sample : list Frame -> list (R * R * R) -> list vec2)
  (action : list vec2) (self : Self) :
  List.length (p self) = n_agents ->
  List.length (vel self) = n_agents ->
  match get_disturbance grid_sample self (p self) with
  | (Ok w, _) =>
      fst (_simulate grid_sample action self) = Ok tt /\
      forall i, (i < n_agents)%nat ->
        row i (vel (snd (_simulate grid_sample action self)))
        = vadd (row i action) (row i w) /\
        row i (p (snd (_simulate grid_sample action self)))
        = vadd (row i (p self)) (smul dt (vadd (row i action) (row i w)))
  | (Raise e, _) => _simulate grid_sample action self = (Raise e, self)
  end.
Proof.
  intros Hp Hv.
  pose proof (get_disturbance_keeps_motion grid_sample self (p self))
    as (Hp2 & Hv2 & _).
  pose proof (get_disturbance_raise_state grid_sample self (p self)) as Hraise.
  unfold _simulate.
  destruct (get_disturbance grid_sample self (p self)) as [[w|e] self2];
    simpl in Hp2, Hv2, Hraise.
  - split; [reflexivity|]. intros i Hi. cbn [snd].
    destruct (simulate_first_order_rows action w (seq 0 n_agents) self2
                (seq_NoDup _ _)) as (_ & _ & Hrows).
    { intros j Hj. apply in_seq in Hj. rewrite Hp2, Hv2, Hp, Hv. lia. }
    destruct (Hrows i) as [[-> ->] _]; [apply in_seq; lia|].
    rewrite Hp2. split; reflexivity.
  - now rewrite (Hraise e eq_refl).
Qed.

Lemma simulate_first_order_witness :
  _simulate (fun _ _ => []) (zeros 3) single_file_self
  = (Raise IndexError, single_file_self).
Proof.
  pose proof (simulate_first_order (fun _ _ => []) (zeros 3) single_file_self
                eq_refl eq_refl) as H.
  assert (E : get_disturbance (fun _ _ => []) single_file_self
                (p single_file_self)
              = (Raise IndexError, single_file_self)).
  { unfold get_disturbance, NS_disturbance. simpl.
    rewrite time_bracket_single; [reflexivity|simpl; lra]. }
  rewrite E in H. exact H.
Defined.

(** ** Where the formation law is at rest *)

Lemma sqrt2_gt_1 : 1 < sqrt 2.
Proof.
  rewrite <- sqrt_1 at 1. apply sqrt_lt_1; lra.
Qed.

Lemma followers_acc (self : Self) :
  row 1 (step_acc self)
  = vadd (vadd vzero (follower_term self 1 0)) (follower_term self 1 2) /\
  row 2 (step_acc self)
  = vadd (vadd vzero (follower_term self 2 1)) (follower_term self 2 0).
Proof.
  unfold step_acc, propagate_goal.
  destruct (100 <? iter self)%nat; split; reflexivity.
Qed.

(** X16.  The commanded acceleration of the followers, for agents with one
    common velocity.  It is zero when the agents stand on the reference
    points reflected through a point, [p_i = c - ref_i].  On the reference
    points themselves, moved by any translation, it is not: follower 1 is
    commanded [- 2 * K_p * ((ref_1 - ref_0) + (ref_1 - ref_2))], whose first
    coordinate is negative. *)
Theorem formation_law_rest_points (self : Self) (c : vec2) :
  (forall i, (i < n_agents)%nat -> row i (vel self) = row 0 (vel self)) ->
  ((forall i, (i < n_agents)%nat ->
      row i (p self) = vsub c (row i formation_ref)) ->
   forall i, (1 <= i < n_agents)%nat -> row i (step_acc self) = vzero) /\
  ((forall i, (i < n_agents)%nat ->
      row i (p self) = vadd (row i formation_ref) c) ->
   row 1 (step_acc self)
   = smul (- 2 * K_p)
       (vadd (vsub (row 1 formation_ref) (row 0 formation_ref))
          (vsub (row 1 formation_ref) (row 2 formation_ref))) /\
   fst (row 1 (step_acc self)) < 0).
Proof.
  intros Hvel. destruct (followers_acc self) as [H1 H2].
  unfold n_agents in *.
  pose proof (Hvel 1%nat ltac:(lia)) as Hv1.
  pose proof (Hvel 2%nat ltac:(lia)) as Hv2.
  assert (Hterm : forall i j, follower_term self i j
            = vsub (smul (- K_p)
                      (vadd (vsub (row i (p self)) (row j (p self)))
                         (vsub (row i formation_ref) (row j formation_ref))))
                (smul K_d (vsub (row i (vel self)) (row j (vel self)))))
    by reflexivity.
  split.
  - intros Hp i Hi.
    pose proof (Hp 0%nat ltac:(lia)) as Hp0.
    pose proof (Hp 1%nat ltac:(lia)) as Hp1.
    pose proof (Hp 2%nat ltac:(lia)) as Hp2.
    assert (Hi' : i = 1%nat \/ i = 2%nat) by lia.
    destruct Hi' as [-> | ->]; [rewrite H1|rewrite H2];
      rewrite !Hterm, Hp0, Hp1, Hp2, Hv1, Hv2;
      destruct c as [cx cy];
      destruct (row 0 formation_ref) as [a0 b0],
               (row 1 formation_ref) as [a1 b1],
               (row 2 formation_ref) as [a2 b2],
               (row 0 (vel self)) as [vx vy];
      unfold vadd, vsub, smul, vzero; simpl; f_equal; ring.
  - intros Hp.
    pose proof (Hp 0%nat ltac:(lia)) as Hp0.
    pose proof (Hp 1%nat ltac:(lia)) as Hp1.
    pose proof (Hp 2%nat ltac:(lia)) as Hp2.
    assert (E : row 1 (step_acc self)
                = smul (- 2 * K_p)
                    (vadd (vsub (row 1 formation_ref) (row 0 formation_ref))
                       (vsub (row 1 formation_ref) (row 2 formation_ref)))).
    { rewrite H1, !Hterm, Hp0, Hp1, Hp2, Hv1, Hv2.
      destruct c as [cx cy];
      destruct (row 0 formation_ref) as [a0 b0],
               (row 1 formation_ref) as [a1 b1],
               (row 2 formation_ref) as [a2 b2],
               (row 0 (vel self)) as [vx vy];
      unfold vadd, vsub, smul, vzero; simpl; f_equal; ring. }
    split; [exact E|]. rewrite E.
    unfold formation_ref, row, K_p; simpl.
    pose proof sqrt2_gt_1 as Hs.
    assert (0 < / sqrt 2 < 1).
    { split; [apply Rinv_0_lt_compat; lra|].
      rewrite <- Rinv_1. apply Rinv_lt_contravar; lra. }
    unfold Rdiv. lra.
Qed.

Lemma formation_law_rest_points_witness :
  fst (row 1 (step_acc (set_vel (zeros 3) translated_self))) < 0.
Proof.
  refine (proj2 (proj2 (formation_law_rest_points
                          (set_vel (zeros 3) translated_self) (3, -1) _)
                   _)).
  - intros i Hi. unfold n_agents in Hi.
    destruct i as [|[|[|i]]]; try lia; reflexivity.
  - intros i Hi. unfold n_agents in Hi.
    destruct i as [|[|[|i]]]; try lia; reflexivity.
Defined.

Lemma NS_query_beyond_witness :
  fst (get_disturbance (fun _ _ => [])
         (set_iter 31 two_file_self) [(1, 2)])
  = Raise (AssertionError
             "Current simulation time is greater than max. simulation time").
Proof.
  apply (NS_query_beyond (fun _ _ => []) (set_iter 31 two_file_self)
           "sim_1x1_b" two_file_sim [(1, 2)]); try reflexivity.
  - discriminate.
  - unfold dt; simpl. lra.
Defined.

(** ** Loading a simulation, and how long it lasts *)



Section EpisodeLength.

Variable grid_sample : list Frame -> list (R * R * R) -> list vec2.




End EpisodeLength.


